(** * TreeSimulation: a shallow embedding of [TreeSimulation.py]

    The three aspects of the tree (energy, logic, control) and the [Tree]
    that combines them are embedded method by method.

    Conventions of the embedding.
    - Python numbers ([int] and [float]) are exact rationals [Q]: rounding of
      binary floating point is not modelled, so [0.05] is the rational 5/100
      and [1/365] is the rational 1/365.  An [int] result ([fruit_count]) is
      a [Z].  The properties stated over [Q] are those a last place of
      rounding does not change; sums over many days, where rounding adds up,
      are not given closed forms.
    - Where the last place decides the result, in the [int()] of
      [decide_growth_and_fruit_production], the method is embedded a second
      time with binary64 floats ([Module Binary64]), with the [ValueError]
      and [OverflowError] that [math.cos] and [int()] raise on infinities.
    - A Python [dict] is a [gmap string value]; reading a missing key raises
      [KeyError], using a string where a number is needed raises [TypeError].
    - A method is a computation in the monad [Py S], where [S] is the object
      the method receives as [self]: it returns a result or an exception,
      together with the object as the call left it (an exception does not
      undo earlier writes).
    - [math.pi], [math.cos] and [math.sin] are irrational valued; they are
      taken as an interface [math.Lib]. *)

From Stdlib Require Import QArith Qround Qabs Qminmax Lqa Floats.
From stdpp Require Import gmap strings list.

Open Scope Q_scope.

(** ** Python numbers *)

Definition Qltb (x y : Q) : bool := (Qnum x * QDen y <? Qnum y * QDen x)%Z.

Notation "x <=? y" := (Qle_bool x y) : Q_scope.
Notation "x <? y" := (Qltb x y) : Q_scope.

(** [max(a, b)]: the first argument unless the second is strictly greater. *)
Definition py_max (a b : Q) : Q := if a <? b then b else a.

(** [x // y] on numbers: the floor of the quotient, as a number. *)
Definition floordiv (x y : Q) : Q := inject_Z (Qfloor (x / y)).

(** [int(x)]: truncation towards zero. *)
Definition py_int (x : Q) : Z := if 0 <=? x then Qfloor x else Qceiling x.

(** ** The [math] module *)

Module math.

Class Lib := { pi : Q; cos : Q -> Q; sin : Q -> Q }.

Definition radians `{Lib} (x : Q) : Q := x * (pi / 180).

(** A rational stand-in, to run the model on concrete inputs. *)
Definition rational : Lib :=
  {| pi := 355 / 113;
     cos := fun x => 1 - x * x / 2 + x * x * x * x / 24;
     sin := fun x => x - x * x * x / 6 |}.

End math.

(** ** Values, dictionaries, exceptions *)

Inductive value : Type :=
| VNum (q : Q)
| VStr (s : string).

Abbreviation dict := (gmap string value).

(** [ValueError], [OverflowError] and [ZeroDivisionError] come from float
    operations on infinities, not-a-number and zero divisors; the methods
    over [Q] have no such inputs and never raise them. *)
Inductive exn : Type :=
| KeyError (k : string)
| TypeError
| UnboundLocalError (x : string)
| ValueError
| OverflowError
| ZeroDivisionError.

Inductive res (A : Type) : Type :=
| Ok (a : A)
| Raise (e : exn).
Arguments Ok {A} a.
Arguments Raise {A} e.

Definition Py (S A : Type) : Type := S -> res A * S.

#[export] Instance Py_ret {S} : MRet (Py S) := fun A a s => (Ok a, s).
#[export] Instance Py_bind {S} : MBind (Py S) := fun A B f m s =>
  match m s with
  | (Ok a, s') => f a s'
  | (Raise e, s') => (Raise e, s')
  end.

Definition raise {S A} (e : exn) : Py S A := fun s => (Raise e, s).
Definition get {S} : Py S S := fun s => (Ok s, s).
Definition modify {S} (f : S -> S) : Py S unit := fun s => (Ok tt, f s).

(** A computation on a component [get s] of [s], the component written back. *)
Definition zoom {S T A} (proj : S -> T) (upd : T -> S -> S) (m : Py T A) : Py S A :=
  fun s => let (r, t) := m (proj s) in (r, upd t s).

(** [d[k]] *)
Definition getitem {S} (d : dict) (k : string) : Py S value :=
  match d !! k with
  | Some v => mret v
  | None => raise (KeyError k)
  end.

(** A value used in arithmetic or in a comparison with a number. *)
Definition number {S} (v : value) : Py S Q :=
  match v with
  | VNum q => mret q
  | VStr _ => raise TypeError
  end.

Definition num_of (v : value) : option Q :=
  match v with
  | VNum q => Some q
  | VStr _ => None
  end.

(** The number stored under [k], when there is one. *)
Definition num_at (d : dict) (k : string) : option Q := d !! k ≫= num_of.

(** ** class EnergyAspect *)

Module EnergyAspect.

Record t : Type := mk {
  input : dict;
  state : dict;
  output : dict;
  latitude : Q;
  has_leaves : bool
}.

Definition set_state (d : dict) (self : t) : t :=
  mk (input self) d (output self) (latitude self) (has_leaves self).
Definition set_output (d : dict) (self : t) : t :=
  mk (input self) (state self) d (latitude self) (has_leaves self).
Definition set_has_leaves (b : bool) (self : t) : t :=
  mk (input self) (state self) (output self) (latitude self) b.

(** [self.state[k]], read as a number *)
Definition state_get (k : string) : Py t Q :=
  self ← get; v ← getitem (state self) k; number v.

(** [self.state[k] = q] *)
Definition state_put (k : string) (q : Q) : Py t unit :=
  modify (fun self => set_state (<[k := VNum q]> (state self)) self).

(** [self.output[k] = v] *)
Definition output_put (k : string) (v : value) : Py t unit :=
  modify (fun self => set_output (<[k := v]> (output self)) self).

(** [__init__]; the default of [initial_nutrients] is 100.0.  The three
    dictionaries are taken to be distinct objects, as the literals
    [Tree.__init__] passes are. *)
Definition init (input state output : dict) (latitude initial_nutrients : Q) : t :=
  let self := mk input state output latitude true in
  let self := set_state (<["stored_nutrients" := VNum initial_nutrients]> (EnergyAspect.state self)) self in
  set_state (<["tree_size" := VNum 1.0]> (EnergyAspect.state self)) self.

(** The factors computed by [photosynthesis] from its arguments. *)
Definition temperature_factor (temperature : Q) : Q :=
  py_max 0 (1 - Qabs (25 - temperature) * 0.05).
Definition humidity_factor (humidity : Q) : Q :=
  py_max 0 (1 - Qabs (50 - humidity) * 0.01).
Definition CO2_factor (CO2_concentration : Q) : Q :=
  CO2_concentration / 400.

Section WithMath.
Context `{math.Lib}.

(** The day length [D] and the solar intensity [I] of [photosynthesis]. *)
Definition D (latitude day_of_year : Q) : Q :=
  let latitude_rad := math.radians latitude in
  let seasonal_factor := math.cos (2 * math.pi * day_of_year / 365.25) in
  12 * (1 + math.cos (latitude_rad * seasonal_factor)).
Definition I (latitude day_of_year : Q) : Q :=
  let latitude_rad := math.radians latitude in
  let declination := 23.44 * math.sin (2 * math.pi * (day_of_year + 10) / 365.25) in
  let declination_rad := math.radians declination in
  math.cos (latitude_rad - declination_rad).

(** [photosynthesis]; the default of [a] is 1. *)
Definition photosynthesis
    (day_of_year temperature humidity CO2_concentration a : Q) : Py t Q :=
  self ← get;
  if negb (has_leaves self) then mret 0 else
  tree_size ← state_get "tree_size";
  let leaf_area_multiplier := 1 + 0.1 * tree_size in
  mret (a * D (latitude self) day_of_year * I (latitude self) day_of_year
        * temperature_factor temperature * humidity_factor humidity
        * CO2_factor CO2_concentration * leaf_area_multiplier).
End WithMath.

Definition water_requirement (temperature : Q) : Py t Q :=
  let base_requirement := 40 / 7 in
  if 30 <? temperature then mret (base_requirement * 1.5)
  else if temperature <? 15 then mret (base_requirement * 0.75)
  else mret base_requirement.

Definition respiration_and_growth : Py t Q :=
  tree_size ← state_get "tree_size";
  let respiration_rate := 0.05 * tree_size in
  stored_nutrients ← state_get "stored_nutrients";
  bud_root_growth_rate ←
    (if 20 <? stored_nutrients
     then stored_nutrients ← state_get "stored_nutrients";
          mret (0.02 * stored_nutrients)
     else mret 0);
  let total_consumption := respiration_rate + bud_root_growth_rate in
  stored_nutrients ← state_get "stored_nutrients";
  state_put "stored_nutrients" (stored_nutrients - total_consumption);;
  stored_nutrients ← state_get "stored_nutrients";
  (if 20 <? stored_nutrients
   then tree_size ← state_get "tree_size";
        state_put "tree_size" (tree_size + 0.01)
   else mret tt);;
  mret total_consumption.

Section WithMath.
Context `{math.Lib}.

(** [energy_generated] is a local variable bound only in the branch with
    leaves: [None] is the unbound variable. *)
Definition generate_energy
    (sunlight water day_of_year temperature humidity CO2_concentration : Q)
    : Py t Q :=
  self ← get;
  energy_generated ←
    (if has_leaves self
     then photosynthesis_efficiency ←
            photosynthesis day_of_year temperature humidity CO2_concentration 1;
          let energy_generated := sunlight * water * 0.1 * photosynthesis_efficiency in
          stored_nutrients ← state_get "stored_nutrients";
          state_put "stored_nutrients" (stored_nutrients + energy_generated);;
          mret (Some energy_generated)
     else mret None);
  total_consumption ← respiration_and_growth;
  self ← get;
  if negb (has_leaves self) then mret 0 else
  match energy_generated with
  | Some energy_generated => mret (energy_generated - total_consumption)
  | None => raise (UnboundLocalError "energy_generated")
  end.
End WithMath.

End EnergyAspect.

(** ** class LogicAspect *)

Module LogicAspect.

Record t : Type := mk { input : dict; state : dict; output : dict }.

Definition set_output (d : dict) (self : t) : t :=
  mk (input self) (state self) d.

Definition output_put (k : string) (v : value) : Py t unit :=
  modify (fun self => set_output (<[k := v]> (output self)) self).

Definition init (input state output : dict) : t := mk input state output.

(** The test of the [if] of [decide_growth_and_fruit_production]. *)
Definition fruiting (stored_nutrients day_of_year tree_age : Q) : bool :=
  (150 <=? day_of_year) && (day_of_year <=? 250)
  && (10 <? stored_nutrients)
  && ((3 <=? tree_age) && (tree_age <=? 5)).

Section WithMath.
Context `{math.Lib}.

Definition seasonal_multiplier (day_of_year : Q) : Py t Q :=
  mret (1 - 0.8 * math.cos (math.pi * day_of_year / 182.5)).

(** Returns [(growth_rate, stored_nutrients, fruit_count)]. *)
Definition decide_growth_and_fruit_production
    (stored_nutrients day_of_year tree_age tree_size health : Q)
    : Py t (Q * Q * Z) :=
  let growth_multiplier := 1 + 0.05 * tree_size in
  let growth_multiplier := growth_multiplier * health in
  seasonal ← seasonal_multiplier day_of_year;
  let growth_rate := stored_nutrients * 0.1 * seasonal * growth_multiplier in
  let fruit_count := 0%Z in
  if fruiting stored_nutrients day_of_year tree_age then
    let fruit_production_multiplier := py_max 0.5 health in
    let fruit_count :=
      py_int (floordiv stored_nutrients 10 * fruit_production_multiplier) in
    let stored_nutrients := stored_nutrients - inject_Z fruit_count * 0.5 in
    mret (growth_rate, stored_nutrients, fruit_count)
  else mret (growth_rate, stored_nutrients, fruit_count).
End WithMath.

End LogicAspect.

(** ** class ControlAspect *)

Module ControlAspect.

Record t : Type := mk { input : dict; state : dict; output : dict }.

Definition set_state (d : dict) (self : t) : t :=
  mk (input self) d (output self).
Definition set_output (d : dict) (self : t) : t :=
  mk (input self) (state self) d.

Definition state_put (k : string) (v : value) : Py t unit :=
  modify (fun self => set_state (<[k := v]> (state self)) self).
Definition output_put (k : string) (v : value) : Py t unit :=
  modify (fun self => set_output (<[k := v]> (output self)) self).

Definition init (input state output : dict) : t := mk input state output.

Definition assess_health (stored_nutrients disease_factor : Q) : Py t Q :=
  let health := 1.0 in
  let health := health - disease_factor in
  let health := if stored_nutrients <? 10 then health - 0.1 else health in
  mret health.

End ControlAspect.

(** ** class Tree *)

Module Tree.

(** [triadic_aspect] is a dictionary with the three keys ["energy"],
    ["logic"] and ["control"], set once by [__init__]: three fields. *)
Record t : Type := mk {
  age : Q;
  energy : EnergyAspect.t;
  logic : LogicAspect.t;
  control : ControlAspect.t
}.

Definition set_age (a : Q) (self : t) : t :=
  mk a (energy self) (logic self) (control self).
Definition set_energy (e : EnergyAspect.t) (self : t) : t :=
  mk (age self) e (logic self) (control self).
Definition set_logic (l : LogicAspect.t) (self : t) : t :=
  mk (age self) (energy self) l (control self).
Definition set_control (c : ControlAspect.t) (self : t) : t :=
  mk (age self) (energy self) (logic self) c.

(** A method call on [self.triadic_aspect["energy"]], and so on. *)
Definition on_energy {A} : Py EnergyAspect.t A -> Py t A := zoom energy set_energy.
Definition on_logic {A} : Py LogicAspect.t A -> Py t A := zoom logic set_logic.
Definition on_control {A} : Py ControlAspect.t A -> Py t A := zoom control set_control.

(** [__init__]; the default of [initial_nutrients] is 800.0. *)
Definition init (latitude initial_nutrients : Q) : t :=
  mk 0
     (EnergyAspect.init ∅
        (<["tree_size" := VNum 1.0]> (<["stored_nutrients" := VNum 0]> ∅))
        ∅ latitude initial_nutrients)
     (LogicAspect.init ∅ ∅ ∅)
     (ControlAspect.init ∅ (<["health" := VNum 1.0]> ∅) ∅).

Definition leafless (day_of_year : Q) : bool :=
  (330 <=? day_of_year) && (day_of_year <=? 365)
  || (1 <=? day_of_year) && (day_of_year <=? 60).

Definition health_status (health : Q) : string :=
  if 0.9 <=? health then "Healthy"
  else if health <=? 0.6 then "Unhealthy" else "Average".

Section WithMath.
Context `{math.Lib}.

Definition daily_update
    (sunlight water day_of_year temperature humidity CO2_concentration
       disease_factor : Q) : Py t unit :=
  modify (fun self => set_age (age self + 1 / 365) self);;
  on_energy (modify (EnergyAspect.set_has_leaves (negb (leafless day_of_year))));;
  on_energy (EnergyAspect.generate_energy sunlight water day_of_year
               temperature humidity CO2_concentration);;
  stored_nutrients ← on_energy (EnergyAspect.state_get "stored_nutrients");
  health ← on_control (ControlAspect.assess_health stored_nutrients disease_factor);
  tree_size ← on_energy (EnergyAspect.state_get "tree_size");
  self ← get;
  '(growth_rate, updated_nutrients, fruit_count) ←
    on_logic (LogicAspect.decide_growth_and_fruit_production
                stored_nutrients day_of_year (age self) tree_size health);
  on_energy (EnergyAspect.state_put "stored_nutrients" updated_nutrients);;
  on_energy (EnergyAspect.output_put "growth_rate" (VNum growth_rate));;
  on_logic (LogicAspect.output_put "fruit_count" (VNum (inject_Z fruit_count)));;
  on_control (ControlAspect.state_put "health" (VNum health));;
  on_control (ControlAspect.output_put "health_status" (VStr (health_status health))).
End WithMath.

(** The dictionary returned by [get_data]: the number under ["age"] and the
    three dictionaries under ["energy"], ["logic"] and ["control"]. *)
Record data : Type := mk_data {
  data_age : Q;
  data_energy : dict;
  data_logic : dict;
  data_control : dict
}.

Definition get_data : Py t data :=
  self ← get;
  stored_nutrients ← getitem (EnergyAspect.state (energy self)) "stored_nutrients";
  growth_rate ← getitem (EnergyAspect.output (energy self)) "growth_rate";
  tree_size ← getitem (EnergyAspect.state (energy self)) "tree_size";
  let energy_data : dict :=
    <["tree_size" := tree_size]>
      (<["growth_rate" := growth_rate]>
         (<["stored_nutrients" := stored_nutrients]> ∅)) in
  fruit_count ← getitem (LogicAspect.output (logic self)) "fruit_count";
  let logic_data : dict := <["fruit_count" := fruit_count]> ∅ in
  health ← getitem (ControlAspect.state (control self)) "health";
  health_status ← getitem (ControlAspect.output (control self)) "health_status";
  let control_data : dict :=
    <["health_status" := health_status]> (<["health" := health]> ∅) in
  mret (mk_data (age self) energy_data logic_data control_data).

End Tree.

(** ** Running the model *)

Record day : Type := mk_day {
  sunlight : Q;
  water : Q;
  day_of_year : Q;
  temperature : Q;
  humidity : Q;
  CO2_concentration : Q;
  disease_factor : Q
}.

Section Runs.
Context `{math.Lib}.

Definition daily_update_with (d : day) : Py Tree.t unit :=
  Tree.daily_update (sunlight d) (water d) (day_of_year d) (temperature d)
    (humidity d) (CO2_concentration d) (disease_factor d).

(** The tree after each of a sequence of [daily_update] calls; the
    sequence stops at a call that raises. *)
Fixpoint trees_after (tree : Tree.t) (days : list day) : list Tree.t :=
  match days with
  | [] => []
  | d :: days =>
      match daily_update_with d tree with
      | (Ok _, tree') => tree' :: trees_after tree' days
      | (Raise _, _) => []
      end
  end.
End Runs.

(** The numbers a tree holds in the state of its energy aspect. *)
Definition tree_size (tree : Tree.t) : option Q :=
  num_at (EnergyAspect.state (Tree.energy tree)) "tree_size".
Definition stored_nutrients (tree : Tree.t) : option Q :=
  num_at (EnergyAspect.state (Tree.energy tree)) "stored_nutrients".

(** Two calls of the same method with the same arguments, one after the
    other, and their two results. *)
Definition twice {S A} (m : Py S A) : Py S (A * A) :=
  r1 ← m; r2 ← m; mret (r1, r2).

(** [m] leaves the part [f] of the object as it found it, whether it returns
    or raises. *)
Definition keeps {S A T} (f : S -> T) (m : Py S A) : Prop :=
  forall s, f (snd (m s)) = f s.

(** ** simulate_growth

    The loop of [simulate_growth] and the four lists it fills; the plotting
    of the lists, which ends the function, is not modelled. *)

Module Simulation.

(** The local variables the loop changes. *)
Record locals : Type := mk_locals {
  tree : Tree.t;
  stored_nutrients_list : list value;
  growth_rate_list : list value;
  fruit_count_list : list value;
  health_list : list value
}.

Definition set_tree (t : Tree.t) (l : locals) : locals :=
  mk_locals t (stored_nutrients_list l) (growth_rate_list l) (fruit_count_list l)
    (health_list l).

Definition on_tree {A} : Py Tree.t A -> Py locals A := zoom tree set_tree.

(** [xs.append(v)] on each of the four lists *)
Definition stored_nutrients_append (v : value) : Py locals unit :=
  modify (fun l => mk_locals (tree l) (stored_nutrients_list l ++ [v])
                     (growth_rate_list l) (fruit_count_list l) (health_list l)).
Definition growth_rate_append (v : value) : Py locals unit :=
  modify (fun l => mk_locals (tree l) (stored_nutrients_list l)
                     (growth_rate_list l ++ [v]) (fruit_count_list l) (health_list l)).
Definition fruit_count_append (v : value) : Py locals unit :=
  modify (fun l => mk_locals (tree l) (stored_nutrients_list l)
                     (growth_rate_list l) (fruit_count_list l ++ [v]) (health_list l)).
Definition health_append (v : value) : Py locals unit :=
  modify (fun l => mk_locals (tree l) (stored_nutrients_list l)
                     (growth_rate_list l) (fruit_count_list l) (health_list l ++ [v])).

(** [for x in xs: body] *)
Fixpoint for_in {S A} (xs : list A) (body : A -> Py S unit) : Py S unit :=
  match xs with
  | [] => mret tt
  | x :: xs => body x;; for_in xs body
  end.

(** [range(1, n + 1)] *)
Definition range1 (n : Z) : list Z := map Z.of_nat (seq 1 (Z.to_nat n)).

Section WithMath.
Context `{math.Lib}.

(** The body of the loop, for the day [day] of the simulation. *)
Definition body (day : Z) : Py locals unit :=
  let sunlight := 1.0 in
  let water := 1.0 in
  let temperature := 20 in
  let humidity := 50 in
  let CO2_concentration := 400 in
  let disease_factor := 0.0 in
  let day_of_year := inject_Z ((day - 1) mod 365 + 1) in
  on_tree (Tree.daily_update sunlight water day_of_year temperature humidity
             CO2_concentration disease_factor);;
  data ← on_tree Tree.get_data;
  v ← getitem (Tree.data_energy data) "stored_nutrients";
  stored_nutrients_append v;;
  v ← getitem (Tree.data_energy data) "growth_rate";
  growth_rate_append v;;
  v ← getitem (Tree.data_logic data) "fruit_count";
  fruit_count_append v;;
  v ← getitem (Tree.data_control data) "health";
  health_append v.

(** [simulate_growth] up to the plotting; the default of [years] is 5.
    The result holds the four lists handed to the plot. *)
Definition simulate_growth (years : Z) : res unit * locals :=
  let latitude := 51.509865 in
  let tree := Tree.init latitude 50 in
  let total_days := (years * 365)%Z in
  let days := range1 total_days in
  for_in days body (mk_locals tree [] [] [] []).
End WithMath.

End Simulation.

(** ** [decide_growth_and_fruit_production] in binary64

    [int()] makes the last place of a product decide an integer, so the
    exact rationals above do not say which integer the call returns.  Here
    the method is embedded once more with Python's own floats: IEEE binary64,
    every operation rounded to nearest even, as the primitive floats are.
    The arguments are floats, as [daily_update] passes them; the day of the
    year, an [int] there, converts to a float exactly. *)

Module Binary64.

#[local] Set Warnings "-inexact-float".
Local Open Scope float_scope.

(** The float nearest to [z * 2^e]. *)
Definition of_Z_exp (z e : Z) : float :=
  SF2Prim (binary_normalize prec emax z e false).

(** [math.floor] of C, on floats. *)
Definition floor (x : float) : float :=
  match Prim2SF x with
  | S754_finite s m e =>
      if (0 <=? e)%Z then x
      else of_Z_exp ((if s then Z.neg m else Z.pos m) / 2 ^ (- e)) 0
  | _ => x
  end.

(** [fmod] of C: the remainder of the truncated quotient, exact, with the
    sign of [x]. *)
Definition fmod (x y : float) : float :=
  match Prim2SF x, Prim2SF y with
  | S754_nan, _ | _, S754_nan | S754_infinity _, _ | _, S754_zero _ => nan
  | _, S754_infinity _ | S754_zero _, _ => x
  | S754_finite sx mx ex, S754_finite _ my ey =>
      let e := Z.min ex ey in
      let r := Z.rem ((if sx then Z.neg mx else Z.pos mx) * 2 ^ (ex - e))
                     (Z.pos my * 2 ^ (ey - e)) in
      if (r =? 0)%Z then (if sx then neg_zero else zero) else of_Z_exp r e
  end.

(** [vx // wx] on floats, as CPython computes it. *)
Definition floordiv (vx wx : float) : res float :=
  if is_zero wx then Raise ZeroDivisionError else
  let remainder := fmod vx wx in
  let div := (vx - remainder) / wx in
  let div :=
    if negb (is_zero remainder) && xorb (wx <? 0) (remainder <? 0)
    then div - 1 else div in
  Ok (if negb (is_zero div)
      then let floordiv := floor div in
           if 0.5 <? div - floordiv then floordiv + 1 else floordiv
      else if get_sign (vx / wx) then neg_zero else zero).

(** [int(x)] of a float: truncation towards zero. *)
Definition py_int (x : float) : res Z :=
  match Prim2SF x with
  | S754_zero _ => Ok 0%Z
  | S754_finite s m e =>
      let z := if (0 <=? e)%Z then (Z.pos m * 2 ^ e)%Z
               else (Z.pos m / 2 ^ (- e))%Z in
      Ok (if s then (- z)%Z else z)
  | S754_infinity _ => Raise OverflowError
  | S754_nan => Raise ValueError
  end.

(** The rational a float stands for, when it is finite. *)
Definition value (x : float) : option Q :=
  match Prim2SF x with
  | S754_zero _ => Some 0%Q
  | S754_finite s m e =>
      let v := if (0 <=? e)%Z then inject_Z (Z.pos m * 2 ^ e)
               else Qmake (Z.pos m) (Z.to_pos (2 ^ (- e))) in
      Some (if s then Qopp v else v)
  | _ => None
  end.

(** An [int] as an operand of a float operation. *)
Definition float_of_int (z : Z) : res float :=
  let x := of_Z_exp z 0 in
  if is_infinity x then Raise OverflowError else Ok x.

(** [max(a, b)] *)
Definition py_max (a b : float) : float := if a <? b then b else a.

(** The result of a function that does not read [self]. *)
Definition lift {S A} (r : res A) : Py S A := fun s => (r, s).

(** [math.pi] is the float 3.141592653589793; [math.cos] is the cosine of the
    C library, taken as an interface. *)
Definition pi : float := 0x1.921fb54442d18p+1.

Class Libm := { cos : float -> float }.

(** [math.cos(x)] raises [ValueError] at an infinity. *)
Definition math_cos `{Libm} {S} (x : float) : Py S float :=
  if is_infinity x then raise ValueError else mret (cos x).

(** A stand-in, to run the model on concrete inputs. *)
Definition polynomial : Libm :=
  {| cos := fun x => 1 - x * x / 2 + x * x * x * x / 24 |}.

Definition fruiting (stored_nutrients day_of_year tree_age : float) : bool :=
  (150 <=? day_of_year) && (day_of_year <=? 250)
  && (10 <? stored_nutrients)
  && ((3 <=? tree_age) && (tree_age <=? 5)).

Section WithLibm.
Context `{Libm}.

Definition seasonal_multiplier (day_of_year : float) : Py LogicAspect.t float :=
  c ← math_cos (pi * day_of_year / 182.5);
  mret (1 - 0.8 * c).

Definition decide_growth_and_fruit_production
    (stored_nutrients day_of_year tree_age tree_size health : float)
    : Py LogicAspect.t (float * float * Z) :=
  let growth_multiplier := 1 + 0.05 * tree_size in
  let growth_multiplier := growth_multiplier * health in
  seasonal ← seasonal_multiplier day_of_year;
  let growth_rate := stored_nutrients * 0.1 * seasonal * growth_multiplier in
  let fruit_count := 0%Z in
  if fruiting stored_nutrients day_of_year tree_age then
    let fruit_production_multiplier := py_max 0.5 health in
    quotient ← lift (floordiv stored_nutrients 10);
    fruit_count ← lift (py_int (quotient * fruit_production_multiplier));
    fruits ← lift (float_of_int fruit_count);
    let stored_nutrients := stored_nutrients - fruits * 0.5 in
    mret (growth_rate, stored_nutrients, fruit_count)
  else mret (growth_rate, stored_nutrients, fruit_count).
End WithLibm.

End Binary64.

(** ** Closed forms

    What the methods of the energy aspect compute on a state that holds the
    numbers [stored_nutrients] and [tree_size]; the lemmas below relate them
    to the methods. *)

(** What [respiration_and_growth] consumes, and the object it leaves. *)
Definition consumption (stored_nutrients tree_size : Q) : Q :=
  0.05 * tree_size + (if 20 <? stored_nutrients then 0.02 * stored_nutrients else 0).

Definition respired (self : EnergyAspect.t) (stored_nutrients tree_size : Q)
    : EnergyAspect.t :=
  let left := stored_nutrients - consumption stored_nutrients tree_size in
  let st := <["stored_nutrients" := VNum left]> (EnergyAspect.state self) in
  EnergyAspect.set_state
    (if 20 <? left then <["tree_size" := VNum (tree_size + 0.01)]> st else st) self.

Section ClosedForms.
Context `{math.Lib}.

(** The value of [photosynthesis] on a tree in leaf, and the energy
    [generate_energy] makes of it. *)
Definition photosynthesized
    (latitude day_of_year temperature humidity CO2_concentration a tree_size : Q) : Q :=
  a * EnergyAspect.D latitude day_of_year * EnergyAspect.I latitude day_of_year
  * EnergyAspect.temperature_factor temperature
  * EnergyAspect.humidity_factor humidity
  * EnergyAspect.CO2_factor CO2_concentration * (1 + 0.1 * tree_size).

Definition generated
    (latitude sunlight water day_of_year temperature humidity CO2_concentration
       tree_size : Q) : Q :=
  sunlight * water * 0.1
  * photosynthesized latitude day_of_year temperature humidity CO2_concentration 1
      tree_size.

(** The nutrients once [generate_energy] has added what it generated. *)
Definition fed_nutrients (leaves : bool) (latitude s w d T h c sn ts : Q) : Q :=
  if leaves then sn + generated latitude s w d T h c ts else sn.
End ClosedForms.

(** ** Predicates of the proofs *)

(** The exceptions a read of [self.state] raises. *)
Definition read_error (e : exn) : Prop :=
  e = KeyError "stored_nutrients" \/ e = KeyError "tree_size" \/ e = TypeError.

(** What the day with index [i] (from 0) of the simulation may write as its
    fruit count: the number of a non-negative integer, which is 0 unless the
    day is one of days 1095 to 1825 and its day of the year one of 150 to
    250. *)
Definition fruit_entry (i : nat) (v : value) : Prop :=
  exists f : Z,
    v = VNum (inject_Z f) /\ (0 <= f)%Z
    /\ (f <> 0%Z ->
        (1095 <= Z.of_nat i + 1 <= 1825)%Z
        /\ (150 <= Z.of_nat i mod 365 + 1 <= 250)%Z).

Definition health_entry (v : value) : Prop :=
  exists q : Q, v = VNum q /\ 0.9 <= q <= 1.0.

(** The invariant of the loop of [simulate_growth], after [k] days. *)
Record inv (k : nat) (l : Simulation.locals) : Prop := {
  inv_nutrients : exists sn, stored_nutrients (Simulation.tree l) = Some sn;
  inv_size : exists ts, tree_size (Simulation.tree l) = Some ts;
  inv_age : Tree.age (Simulation.tree l) == inject_Z (Z.of_nat k) * (1 / 365);
  inv_len_nutrients : length (Simulation.stored_nutrients_list l) = k;
  inv_len_growth : length (Simulation.growth_rate_list l) = k;
  inv_len_fruit : length (Simulation.fruit_count_list l) = k;
  inv_len_health : length (Simulation.health_list l) = k;
  inv_fruit :
    forall i v, Simulation.fruit_count_list l !! i = Some v -> fruit_entry i v;
  inv_health : forall v, v ∈ Simulation.health_list l -> health_entry v
}.

(** ** Sample inputs *)

Definition sample_aspect (leaves : bool) : EnergyAspect.t :=
  EnergyAspect.set_has_leaves leaves (EnergyAspect.init ∅ ∅ ∅ 51.509865 50).
Definition sample_tree : Tree.t := Tree.init 51.509865 50.
Definition sample_day : day := mk_day 1.0 1.0 200 20 50 400 0.0.

(** An aspect whose state has been emptied ([self.state.clear()]), and a tree
    with such an energy aspect. *)
Definition bare_aspect : EnergyAspect.t :=
  EnergyAspect.set_state ∅ (sample_aspect true).
Definition bare_tree : Tree.t := Tree.set_energy bare_aspect sample_tree.

(** * Properties *)

(** ** Numbers *)

Lemma Qltb_lt (x y : Q) : (x <? y) = true <-> x < y.
Proof. unfold Qltb, Qlt. apply Z.ltb_lt. Qed.

Lemma Qltb_ge (x y : Q) : (x <? y) = false <-> y <= x.
Proof. unfold Qltb, Qle. apply Z.ltb_ge. Qed.

Lemma Qleb_gt (x y : Q) : (x <=? y) = false <-> y < x.
Proof.
  split; intros E.
  - apply Qnot_le_lt. intros L. apply Qle_bool_iff in L. congruence.
  - destruct (x <=? y) eqn:L; [apply Qle_bool_iff in L; lra | reflexivity].
Qed.

Lemma py_max_Qmax (a b : Q) : py_max a b = Qmax a b.
Proof.
  unfold py_max, Qmax, GenericMinMax.gmax.
  destruct (a <? b) eqn:E.
  - apply Qltb_lt in E. rewrite (proj1 (Qlt_alt a b) E). reflexivity.
  - apply Qltb_ge in E. destruct (a ?= b) eqn:C; try reflexivity.
    apply Qlt_alt in C. lra.
Qed.

Lemma py_max_lub (a b : Q) : a <= py_max a b /\ b <= py_max a b.
Proof.
  unfold py_max. destruct (a <? b) eqn:E.
  - apply Qltb_lt in E. lra.
  - apply Qltb_ge in E. lra.
Qed.

Lemma py_int_nonneg (x : Q) : 0 <= x -> py_int x = Qfloor x.
Proof. intros L. unfold py_int. apply Qle_bool_iff in L. rewrite L. reflexivity. Qed.

(** ** The monad *)

Lemma bind_ok {S A B} (m : Py S A) (k : A -> Py S B) s a s' :
  m s = (Ok a, s') -> (m ≫= k) s = k a s'.
Proof. intros E. unfold mbind, Py_bind. rewrite E. reflexivity. Qed.

Lemma bind_raise {S A B} (m : Py S A) (k : A -> Py S B) s e s' :
  m s = (Raise e, s') -> (m ≫= k) s = (Raise e, s').
Proof. intros E. unfold mbind, Py_bind. rewrite E. reflexivity. Qed.

Lemma bind_modify {S B} (g : S -> S) (k : unit -> Py S B) s :
  (modify g ≫= k) s = k tt (g s).
Proof. reflexivity. Qed.

Lemma zoom_ok {S T A} (proj : S -> T) (upd : T -> S -> S) (m : Py T A) s r t :
  m (proj s) = (r, t) -> zoom proj upd m s = (r, upd t s).
Proof. intros E. unfold zoom. rewrite E. reflexivity. Qed.

Lemma twice_ok {S A} (m : Py S A) s a :
  m s = (Ok a, s) -> twice m s = (Ok (a, a), s).
Proof.
  intros E. unfold twice.
  rewrite (bind_ok _ _ _ _ _ E), (bind_ok _ _ _ _ _ E). reflexivity.
Qed.

Section Keeps.
Context {S T : Type} (f : S -> T).

Lemma keeps_ret {A} (a : A) : keeps f (mret a).
Proof. intros s. reflexivity. Qed.

Lemma keeps_raise {A} e : keeps f (raise e : Py S A).
Proof. intros s. reflexivity. Qed.

Lemma keeps_get : keeps f get.
Proof. intros s. reflexivity. Qed.

Lemma keeps_modify (g : S -> S) : (forall s, f (g s) = f s) -> keeps f (modify g).
Proof. intros E s. apply E. Qed.

Lemma keeps_bind {A B} (m : Py S A) (k : A -> Py S B) :
  keeps f m -> (forall a, keeps f (k a)) -> keeps f (m ≫= k).
Proof.
  intros Hm Hk s. unfold mbind, Py_bind.
  specialize (Hm s). destruct (m s) as [[a | e] s']; simpl in Hm.
  - rewrite Hk. exact Hm.
  - exact Hm.
Qed.

Lemma keeps_getitem d k : keeps f (getitem d k).
Proof. unfold getitem. destruct (d !! k); [apply keeps_ret | apply keeps_raise]. Qed.

Lemma keeps_number v : keeps f (number v).
Proof. destruct v; [apply keeps_ret | apply keeps_raise]. Qed.

Lemma keeps_if {A} (b : bool) (m1 m2 : Py S A) :
  keeps f m1 -> keeps f m2 -> keeps f (if b then m1 else m2).
Proof. destruct b; trivial. Qed.

Lemma keeps_zoom {U A} (proj : S -> U) (upd : U -> S -> S) (m : Py U A) :
  (forall u s, f (upd u s) = f s) -> keeps f (zoom proj upd m).
Proof. intros E s. unfold zoom. destruct (m (proj s)) as [r u]. apply E. Qed.
End Keeps.

(** A computation on a component keeps what it keeps of the component. *)
Lemma keeps_zoom_in {S U T A} (proj : S -> U) (upd : U -> S -> S) (g : U -> T)
    (m : Py U A) :
  (forall u s, proj (upd u s) = u) -> keeps g m ->
  keeps (fun s => g (proj s)) (zoom proj upd m).
Proof.
  intros E Hm s. unfold zoom. specialize (Hm (proj s)).
  destruct (m (proj s)) as [r u]. simpl in *. rewrite E. exact Hm.
Qed.

Create HintDb keeps.
#[export] Hint Resolve keeps_ret keeps_raise keeps_get keeps_getitem keeps_number
  keeps_if : keeps.

(** Steps through the binds of a method; the reads are in the hint database,
    a write keeps [f] when it is to another field. *)
Ltac keeps_tac :=
  repeat first
    [ apply keeps_bind; [| intros ?]
    | solve [auto with keeps nocore]
    | apply keeps_if
    | apply keeps_modify; intros []; reflexivity
    | match goal with |- keeps _ (match ?x with _ => _ end) => destruct x end ].

(** ** Dictionaries *)

Lemma num_at_insert_eq (d : dict) k q : num_at (<[k := VNum q]> d) k = Some q.
Proof. unfold num_at. rewrite lookup_insert_eq. reflexivity. Qed.

Lemma num_at_insert_ne (d : dict) k k' v :
  k <> k' -> num_at (<[k := v]> d) k' = num_at d k'.
Proof. intros N. unfold num_at. rewrite lookup_insert_ne by exact N. reflexivity. Qed.

(** ** EnergyAspect *)

Module EnergyAspectFacts.
Import EnergyAspect.

Lemma state_get_ok self k q :
  num_at (state self) k = Some q -> state_get k self = (Ok q, self).
Proof.
  unfold num_at, state_get, getitem. intros E.
  unfold mbind at 1, Py_bind, get.
  destruct (state self !! k) as [[q' | s] |]; simpl in E; try discriminate.
  injection E as ->. reflexivity.
Qed.

Lemma state_set_state d self : state (set_state d self) = d.
Proof. reflexivity. Qed.

Ltac num_at_tac :=
  rewrite ?state_set_state;
  first
    [ eassumption
    | apply num_at_insert_eq
    | rewrite num_at_insert_ne by discriminate; num_at_tac ].

(** Runs a sequence of reads and writes of [self.state] whose keys hold
    numbers. *)
Ltac run_atom :=
  lazymatch goal with
  | |- (?m ≫= ?k) ?s = _ => erewrite (bind_ok m k s) by run_atom; run_atom
  | |- state_get _ _ = _ => apply state_get_ok; num_at_tac
  | |- _ => reflexivity
  end.

Ltac run :=
  repeat lazymatch goal with
  | |- (?m ≫= ?k) ?s = _ => erewrite (bind_ok m k s) by run_atom
  end.

Lemma respiration_and_growth_ok self sn ts :
  num_at (state self) "stored_nutrients" = Some sn ->
  num_at (state self) "tree_size" = Some ts ->
  respiration_and_growth self = (Ok (consumption sn ts), respired self sn ts).
Proof.
  intros Hsn Hts. unfold respiration_and_growth, respired.
  rewrite (bind_ok _ _ _ _ _ (state_get_ok _ _ _ Hts)).
  rewrite (bind_ok _ _ _ _ _ (state_get_ok _ _ _ Hsn)).
  assert (Hbud :
    (if 20 <? sn
     then stored_nutrients ← state_get "stored_nutrients";
          mret (0.02 * stored_nutrients)
     else mret 0) self = (Ok (if 20 <? sn then 0.02 * sn else 0), self)).
  { destruct (20 <? sn); [run; reflexivity | reflexivity]. }
  rewrite (bind_ok _ _ _ _ _ Hbud). fold (consumption sn ts).
  run. cbv zeta.
  destruct (20 <? sn - consumption sn ts); run; reflexivity.
Qed.

Lemma respired_stored_nutrients self sn ts :
  num_at (state (respired self sn ts)) "stored_nutrients"
  = Some (sn - consumption sn ts).
Proof.
  unfold respired. cbv zeta. rewrite state_set_state.
  destruct (20 <? sn - consumption sn ts); num_at_tac.
Qed.

Lemma respired_tree_size self sn ts :
  num_at (state self) "tree_size" = Some ts ->
  num_at (state (respired self sn ts)) "tree_size"
  = Some (if 20 <? sn - consumption sn ts then ts + 0.01 else ts).
Proof.
  intros Hts. unfold respired. cbv zeta. rewrite state_set_state.
  destruct (20 <? sn - consumption sn ts); num_at_tac.
Qed.

Lemma respired_rest self sn ts :
  has_leaves (respired self sn ts) = has_leaves self
  /\ output (respired self sn ts) = output self
  /\ latitude (respired self sn ts) = latitude self.
Proof. repeat split. Qed.

Section WithMath.
Context `{math.Lib}.

Lemma photosynthesis_leafless self d T h c a :
  has_leaves self = false -> photosynthesis d T h c a self = (Ok 0, self).
Proof.
  intros L. unfold photosynthesis.
  rewrite (bind_ok get _ self self self eq_refl). rewrite L. reflexivity.
Qed.

Lemma photosynthesis_leaves self d T h c a ts :
  has_leaves self = true ->
  num_at (state self) "tree_size" = Some ts ->
  photosynthesis d T h c a self
  = (Ok (photosynthesized (latitude self) d T h c a ts), self).
Proof.
  intros L Hts. unfold photosynthesis.
  rewrite (bind_ok get _ self self self eq_refl). rewrite L. cbn [negb].
  run. reflexivity.
Qed.

Lemma generate_energy_leafless self s w d T h c sn ts :
  has_leaves self = false ->
  num_at (state self) "stored_nutrients" = Some sn ->
  num_at (state self) "tree_size" = Some ts ->
  generate_energy s w d T h c self = (Ok 0, respired self sn ts).
Proof.
  intros L Hsn Hts. unfold generate_energy.
  rewrite (bind_ok get _ self self self eq_refl). rewrite L.
  rewrite (bind_ok (mret None) _ self None self eq_refl).
  rewrite (bind_ok _ _ _ _ _ (respiration_and_growth_ok _ _ _ Hsn Hts)).
  rewrite (bind_ok get _ _ _ _ eq_refl).
  rewrite (proj1 (respired_rest self sn ts)), L. reflexivity.
Qed.

Lemma generate_energy_leaves self s w d T h c sn ts :
  has_leaves self = true ->
  num_at (state self) "stored_nutrients" = Some sn ->
  num_at (state self) "tree_size" = Some ts ->
  let eg := generated (latitude self) s w d T h c ts in
  let fed := set_state (<["stored_nutrients" := VNum (sn + eg)]> (state self)) self in
  generate_energy s w d T h c self
  = (Ok (eg - consumption (sn + eg) ts), respired fed (sn + eg) ts).
Proof.
  intros L Hsn Hts eg fed. unfold generate_energy.
  rewrite (bind_ok get _ self self self eq_refl). rewrite L.
  assert (Hfed :
    (photosynthesis_efficiency ← photosynthesis d T h c 1;
     let energy_generated := s * w * 0.1 * photosynthesis_efficiency in
     stored_nutrients ← state_get "stored_nutrients";
     state_put "stored_nutrients" (stored_nutrients + energy_generated);;
     mret (Some energy_generated)) self = (Ok (Some eg), fed)).
  { rewrite (bind_ok _ _ _ _ _ (photosynthesis_leaves self d T h c 1 ts L Hts)).
    cbv zeta. run. reflexivity. }
  rewrite (bind_ok _ _ _ _ _ Hfed).
  assert (Hsn' : num_at (state fed) "stored_nutrients" = Some (sn + eg))
    by (unfold fed; num_at_tac).
  assert (Hts' : num_at (state fed) "tree_size" = Some ts)
    by (unfold fed; num_at_tac).
  rewrite (bind_ok _ _ _ _ _ (respiration_and_growth_ok _ _ _ Hsn' Hts')).
  rewrite (bind_ok get _ _ _ _ eq_refl).
  rewrite (proj1 (respired_rest fed (sn + eg) ts)).
  replace (has_leaves fed) with true by (symmetry; exact L). reflexivity.
Qed.

Lemma generate_energy_ok self s w d T h c sn ts :
  num_at (state self) "stored_nutrients" = Some sn ->
  num_at (state self) "tree_size" = Some ts ->
  let sn1 := fed_nutrients (has_leaves self) (latitude self) s w d T h c sn ts in
  let sn2 := sn1 - consumption sn1 ts in
  exists r self',
    generate_energy s w d T h c self = (Ok r, self')
    /\ num_at (state self') "stored_nutrients" = Some sn2
    /\ num_at (state self') "tree_size"
       = Some (if 20 <? sn2 then ts + 0.01 else ts)
    /\ has_leaves self' = has_leaves self
    /\ output self' = output self
    /\ latitude self' = latitude self.
Proof.
  intros Hsn Hts. unfold fed_nutrients. destruct (has_leaves self) eqn:L; cbv zeta.
  - eexists _, _. split.
    { apply (generate_energy_leaves self s w d T h c sn ts L Hsn Hts). }
    rewrite respired_stored_nutrients, respired_tree_size by num_at_tac.
    repeat split. exact L.
  - eexists _, _. split.
    { apply (generate_energy_leafless self s w d T h c sn ts L Hsn Hts). }
    rewrite respired_stored_nutrients, respired_tree_size by num_at_tac.
    repeat split. exact L.
Qed.
End WithMath.

End EnergyAspectFacts.

(** ** LogicAspect and ControlAspect *)

Module LogicAspectFacts.
Import LogicAspect.

Lemma fruiting_true sn d a :
  fruiting sn d a = true <-> (150 <= d <= 250 /\ 10 < sn /\ 3 <= a <= 5).
Proof.
  unfold fruiting. rewrite !andb_true_iff, !Qle_bool_iff, Qltb_lt. tauto.
Qed.

Lemma fruiting_false sn d a :
  fruiting sn d a = false
  <-> (a < 3 \/ 5 < a \/ d < 150 \/ 250 < d \/ sn <= 10).
Proof.
  unfold fruiting. rewrite !andb_false_iff, !Qleb_gt, Qltb_ge. tauto.
Qed.

Section WithMath.
Context `{math.Lib}.

(** The call returns, and leaves the aspect as it found it. *)
Lemma decide_returns self sn d a ts h :
  exists r,
    decide_growth_and_fruit_production sn d a ts h self = (Ok r, self).
Proof.
  unfold decide_growth_and_fruit_production, seasonal_multiplier.
  unfold mbind, Py_bind, mret, Py_ret.
  destruct (fruiting sn d a); eexists; reflexivity.
Qed.
End WithMath.
End LogicAspectFacts.

(** ** Tree *)

Module TreeFacts.
Import Tree EnergyAspectFacts.

Lemma on_energy_ok {A} (m : Py EnergyAspect.t A) tree r e :
  m (energy tree) = (r, e) -> on_energy m tree = (r, set_energy e tree).
Proof. apply zoom_ok. Qed.

Lemma on_logic_ok {A} (m : Py LogicAspect.t A) tree r l :
  m (logic tree) = (r, l) -> on_logic m tree = (r, set_logic l tree).
Proof. apply zoom_ok. Qed.

Lemma on_control_ok {A} (m : Py ControlAspect.t A) tree r c :
  m (control tree) = (r, c) -> on_control m tree = (r, set_control c tree).
Proof. apply zoom_ok. Qed.

Lemma leafless_true d :
  leafless d = true <-> (330 <= d <= 365 \/ 1 <= d <= 60).
Proof.
  unfold leafless. rewrite orb_true_iff, !andb_true_iff, !Qle_bool_iff. tauto.
Qed.

Ltac tree_simpl :=
  cbn [set_age set_energy set_logic set_control age energy logic control].

Section WithMath.
Context `{math.Lib}.

Lemma daily_update_ok tree s w d T h c df sn ts :
  stored_nutrients tree = Some sn ->
  tree_size tree = Some ts ->
  let sn1 := fed_nutrients (negb (leafless d)) (EnergyAspect.latitude (energy tree))
               s w d T h c sn ts in
  let sn2 := sn1 - consumption sn1 ts in
  let ts' := if 20 <? sn2 then ts + 0.01 else ts in
  exists tree' health growth_rate updated fruit_count,
    daily_update s w d T h c df tree = (Ok tt, tree')
    /\ ControlAspect.assess_health sn2 df (control tree)
       = (Ok health, control tree)
    /\ LogicAspect.decide_growth_and_fruit_production
         sn2 d (age tree + 1 / 365) ts' health (logic tree)
       = (Ok (growth_rate, updated, fruit_count), logic tree)
    /\ age tree' = age tree + 1 / 365
    /\ EnergyAspect.has_leaves (energy tree') = negb (leafless d)
    /\ EnergyAspect.latitude (energy tree') = EnergyAspect.latitude (energy tree)
    /\ tree_size tree' = Some ts'
    /\ stored_nutrients tree' = Some updated
    /\ EnergyAspect.output (energy tree') !! "growth_rate"
       = Some (VNum growth_rate)
    /\ LogicAspect.output (logic tree') !! "fruit_count"
       = Some (VNum (inject_Z fruit_count))
    /\ ControlAspect.state (control tree') !! "health" = Some (VNum health)
    /\ ControlAspect.output (control tree') !! "health_status"
       = Some (VStr (health_status health)).
Proof.
  intros Hsn Hts. unfold stored_nutrients, tree_size in *.
  destruct tree as [age0 e l ct]. cbn [age energy logic control] in *.
  set (e1 := EnergyAspect.set_has_leaves (negb (leafless d)) e).
  destruct (generate_energy_ok e1 s w d T h c sn ts Hsn Hts)
    as (r & e2 & Hgen & Hsn2 & Hts2 & Hleaves & Hout & Hlat).
  change (EnergyAspect.has_leaves e1) with (negb (leafless d)) in *.
  change (EnergyAspect.latitude e1) with (EnergyAspect.latitude e) in *.
  set (sn1 := fed_nutrients (negb (leafless d)) (EnergyAspect.latitude e) s w d T h c sn ts) in *.
  set (sn2 := sn1 - consumption sn1 ts) in *.
  set (ts' := if 20 <? sn2 then ts + 0.01 else ts) in *.
  cbv zeta.
  set (health := if sn2 <? 10 then 1.0 - df - 0.1 else 1.0 - df).
  destruct (LogicAspectFacts.decide_returns l sn2 d (age0 + 1 / 365) ts' health)
    as ([[g u] f] & Hdec).
  eexists _, health, g, u, f.
  split.
  { unfold daily_update.
    erewrite bind_ok by reflexivity. tree_simpl.
    erewrite bind_ok by (apply on_energy_ok; reflexivity). tree_simpl.
    erewrite bind_ok by (apply on_energy_ok; exact Hgen). tree_simpl.
    erewrite bind_ok by (apply on_energy_ok, state_get_ok; exact Hsn2). tree_simpl.
    erewrite bind_ok by (apply on_control_ok; reflexivity). tree_simpl.
    erewrite bind_ok by (apply on_energy_ok, state_get_ok; exact Hts2). tree_simpl.
    erewrite bind_ok by reflexivity. tree_simpl.
    erewrite bind_ok by (apply on_logic_ok; exact Hdec). tree_simpl.
    erewrite bind_ok by (apply on_energy_ok; reflexivity). tree_simpl.
    erewrite bind_ok by (apply on_energy_ok; reflexivity). tree_simpl.
    erewrite bind_ok by (apply on_logic_ok; reflexivity). tree_simpl.
    erewrite bind_ok by (apply on_control_ok; reflexivity). tree_simpl.
    apply on_control_ok. reflexivity. }
  tree_simpl.
  cbn [EnergyAspect.set_output EnergyAspect.set_state EnergyAspect.has_leaves
         EnergyAspect.latitude EnergyAspect.state EnergyAspect.output
         LogicAspect.set_output LogicAspect.output
         ControlAspect.set_output ControlAspect.set_state
         ControlAspect.state ControlAspect.output].
  repeat split;
    try assumption;
    try (rewrite num_at_insert_ne by discriminate; assumption);
    try apply num_at_insert_eq;
    try apply lookup_insert_eq.
Qed.
End WithMath.
End TreeFacts.

(** ** What a call leaves alone *)

Module Frame.
Import Tree.

Ltac unfold_methods :=
  unfold EnergyAspect.generate_energy, EnergyAspect.photosynthesis,
    EnergyAspect.respiration_and_growth, EnergyAspect.water_requirement,
    EnergyAspect.state_get, EnergyAspect.state_put, EnergyAspect.output_put.

Lemma on_energy_keeps_age {A} (m : Py EnergyAspect.t A) : keeps age (on_energy m).
Proof. apply keeps_zoom. intros u []. reflexivity. Qed.

Lemma on_logic_keeps_age {A} (m : Py LogicAspect.t A) : keeps age (on_logic m).
Proof. apply keeps_zoom. intros u []. reflexivity. Qed.

Lemma on_control_keeps_age {A} (m : Py ControlAspect.t A) : keeps age (on_control m).
Proof. apply keeps_zoom. intros u []. reflexivity. Qed.

Lemma on_logic_keeps_energy {A} (m : Py LogicAspect.t A) : keeps energy (on_logic m).
Proof. apply keeps_zoom. intros u []. reflexivity. Qed.

Lemma on_control_keeps_energy {A} (m : Py ControlAspect.t A) :
  keeps energy (on_control m).
Proof. apply keeps_zoom. intros u []. reflexivity. Qed.

Lemma on_energy_keeps {A T} (g : EnergyAspect.t -> T) (m : Py EnergyAspect.t A) :
  keeps g m -> keeps (fun tree => g (energy tree)) (on_energy m).
Proof. apply keeps_zoom_in. intros u []. reflexivity. Qed.

Lemma keeps_compose {S T U A} (f : S -> T) (g : T -> U) (m : Py S A) :
  keeps f m -> keeps (fun s => g (f s)) m.
Proof. intros K s. rewrite K. reflexivity. Qed.

Section WithMath.
Context `{math.Lib}.

Lemma generate_energy_keeps_has_leaves s w d T h c :
  keeps EnergyAspect.has_leaves (EnergyAspect.generate_energy s w d T h c).
Proof. unfold_methods. keeps_tac. Qed.

Lemma photosynthesis_keeps_state d T h c a :
  keeps EnergyAspect.state (EnergyAspect.photosynthesis d T h c a).
Proof. unfold_methods. keeps_tac. Qed.
End WithMath.

Lemma water_requirement_keeps_state T :
  keeps EnergyAspect.state (EnergyAspect.water_requirement T).
Proof. unfold_methods. keeps_tac. Qed.

Lemma get_data_keeps : keeps id get_data.
Proof. unfold get_data. keeps_tac. Qed.

(** The steps of a tree method, each of which keeps [f]. *)
Ltac keeps_steps lem :=
  repeat first
    [ apply keeps_bind; [| intros ?]
    | apply keeps_get
    | lem
    | match goal with |- keeps _ (match ?x with _ => _ end) => destruct x end ].

Section Daily.
Context `{math.Lib}.

(** The age is written by the first step of [daily_update] alone. *)
Lemma daily_update_age tree s w d T h c df :
  age (snd (daily_update s w d T h c df tree)) = age tree + 1 / 365.
Proof.
  unfold daily_update. rewrite bind_modify.
  match goal with
  | |- age (snd (?rest ?t)) = _ => assert (K : keeps age rest)
  end.
  { keeps_steps
      ltac:(first [ apply on_energy_keeps_age
                  | apply on_logic_keeps_age
                  | apply on_control_keeps_age ]). }
  rewrite K. reflexivity.
Qed.

(** [has_leaves] is written by the second step alone. *)
Lemma daily_update_has_leaves tree s w d T h c df :
  EnergyAspect.has_leaves (energy (snd (daily_update s w d T h c df tree)))
  = negb (leafless d).
Proof.
  unfold daily_update. rewrite bind_modify.
  match goal with
  | |- context [(on_energy (modify ?g) ≫= ?k) ?t] =>
      change ((on_energy (modify g) ≫= k) t)
        with (k tt (set_energy (g (energy t)) t))
  end.
  match goal with
  | |- _ (energy (snd (?rest ?t))) = _ =>
      assert (K : keeps (fun tree => EnergyAspect.has_leaves (energy tree)) rest)
  end.
  { keeps_steps
      ltac:(first
        [ apply (on_energy_keeps EnergyAspect.has_leaves);
          first [ apply generate_energy_keeps_has_leaves
                | unfold_methods; keeps_tac ]
        | apply (keeps_compose energy EnergyAspect.has_leaves);
          first [ apply on_logic_keeps_energy
                | apply on_control_keeps_energy ] ]). }
  rewrite K. destruct tree. reflexivity.
Qed.
End Daily.
End Frame.

(** ** The model on given inputs *)

Example health_status_healthy : Tree.health_status 1.0 = "Healthy".
Proof. reflexivity. Qed.

Example health_status_unhealthy : Tree.health_status 0.6 = "Unhealthy".
Proof. reflexivity. Qed.

Example health_status_average : Tree.health_status 0.75 = "Average".
Proof. reflexivity. Qed.

Example temperature_factor_25 : EnergyAspect.temperature_factor 25 == 1.
Proof. reflexivity. Qed.

Example temperature_factor_45 : EnergyAspect.temperature_factor 45 == 0.
Proof. reflexivity. Qed.

Example CO2_factor_800 : EnergyAspect.CO2_factor 800 == 2.
Proof. reflexivity. Qed.

Example fruit_count_of_28 : py_int (floordiv 28 10 * py_max 0.5 0.75) = 1%Z.
Proof. reflexivity. Qed.

(** Day 1 of the simulation is leafless: the 50 nutrients lose
    0.05 * 1.0 + 0.02 * 50, the tree grows, bears no fruit and is healthy. *)
Example first_day :
  exists tree' data sn ts,
    Tree.daily_update (H := math.rational) 1.0 1.0 1 20 50 400 0.0 sample_tree
    = (Ok tt, tree')
    /\ Tree.get_data tree' = (Ok data, tree')
    /\ EnergyAspect.has_leaves (Tree.energy tree') = false
    /\ num_at (Tree.data_energy data) "stored_nutrients" = Some sn /\ sn == 48.95
    /\ num_at (Tree.data_energy data) "tree_size" = Some ts /\ ts == 1.01
    /\ Tree.data_logic data !! "fruit_count" = Some (VNum (inject_Z 0))
    /\ Tree.data_control data !! "health_status" = Some (VStr "Healthy").
Proof.
  eexists _, _, _, _. split; [vm_compute; reflexivity |].
  split; [vm_compute; reflexivity |].
  repeat split; vm_compute; reflexivity.
Qed.

(** ** Binary64 *)

Module Binary64Facts.
Import Binary64.

#[local] Set Warnings "-inexact-float".







(** Runs of the method in the fruiting season, with the stand-in cosine:
    1000 // 10 * 0.57 is 56.99999999999999 and gives 56 fruits;
    100 // 10 * 0.7 rounds to 7.0 and gives 7; 28 // 10 * 0.75 is 1.5 and
    gives 1. *)
Example decide_1000 :
  match fst (decide_growth_and_fruit_production (H := polynomial)
               1000 200 4 1 0.57 (LogicAspect.init ∅ ∅ ∅)) with
  | Ok (_, updated_nutrients, fruit_count) =>
      updated_nutrients = 972%float /\ fruit_count = 56%Z
  | Raise _ => False
  end.
Proof. vm_compute. split; reflexivity. Qed.

Example decide_100 :
  match fst (decide_growth_and_fruit_production (H := polynomial)
               100 200 4 1 0.7 (LogicAspect.init ∅ ∅ ∅)) with
  | Ok (_, updated_nutrients, fruit_count) =>
      updated_nutrients = 96.5%float /\ fruit_count = 7%Z
  | Raise _ => False
  end.
Proof. vm_compute. split; reflexivity. Qed.

Example decide_28 :
  match fst (decide_growth_and_fruit_production (H := polynomial)
               28 200 4 1 0.75 (LogicAspect.init ∅ ∅ ∅)) with
  | Ok (_, updated_nutrients, fruit_count) =>
      updated_nutrients = 27.5%float /\ fruit_count = 1%Z
  | Raise _ => False
  end.
Proof. vm_compute. split; reflexivity. Qed.

(** An infinite day makes [math.cos] raise, and an infinite product cannot
    be converted. *)
Example decide_infinite_day :
  fst (decide_growth_and_fruit_production (H := polynomial)
         28 infinity 4 1 0.75 (LogicAspect.init ∅ ∅ ∅))
  = Raise ValueError.
Proof. vm_compute. reflexivity. Qed.

Example decide_infinite_nutrients :
  fst (decide_growth_and_fruit_production (H := polynomial)
         infinity 200 4 1 0.75 (LogicAspect.init ∅ ∅ ∅))
  = Raise ValueError
  /\ fst (decide_growth_and_fruit_production (H := polynomial)
            0x1p+1023 200 4 1 infinity (LogicAspect.init ∅ ∅ ∅))
     = Raise OverflowError.
Proof. vm_compute. split; reflexivity. Qed.

End Binary64Facts.

(** * The claims *)

(** Discharges a comparison of two given rationals. *)
Ltac Qcmp := vm_compute; first [reflexivity | discriminate].

(** ** Growth and fruit production *)




(** C5: outside the fruiting age, the fruiting season, or with at most 10
    nutrients, the call returns no fruit and the nutrients it was given. *)
Theorem C5_no_fruit `{math.Lib} self sn d a ts h :
  a < 3 \/ 5 < a \/ d < 150 \/ 250 < d \/ sn <= 10 ->
  exists growth_rate,
    LogicAspect.decide_growth_and_fruit_production sn d a ts h self
    = (Ok (growth_rate, sn, 0%Z), self).
Proof.
  intros Hout. apply LogicAspectFacts.fruiting_false in Hout.
  unfold LogicAspect.decide_growth_and_fruit_production,
    LogicAspect.seasonal_multiplier, mbind, Py_bind, mret, Py_ret.
  rewrite Hout. eexists. reflexivity.
Qed.

Lemma C5_no_fruit_witness :
  exists growth_rate,
    LogicAspect.decide_growth_and_fruit_production (H := math.rational)
      28 200 1 1 0.75 (LogicAspect.init ∅ ∅ ∅)
    = (Ok (growth_rate, 28, 0%Z), LogicAspect.init ∅ ∅ ∅).
Proof.
  apply (C5_no_fruit (H := math.rational) (LogicAspect.init ∅ ∅ ∅) 28 200 1 1 0.75).
  left. Qcmp.
Defined.

(** ** Health *)

(** C10: [assess_health] returns 1.0 - disease_factor when
    stored_nutrients >= 10 and 1.0 - disease_factor - 0.1 when
    stored_nutrients < 10; the result is at most 1.0 for a non-negative
    disease_factor, and within [-0.1, 1.0] for a disease_factor in [0, 1]. *)
Theorem C10_health_range self sn df :
  exists health,
    ControlAspect.assess_health sn df self = (Ok health, self)
    /\ (10 <= sn -> health = 1.0 - df)
    /\ (sn < 10 -> health = 1.0 - df - 0.1)
    /\ (0 <= df -> health <= 1.0)
    /\ (0 <= df <= 1 -> -0.1 <= health <= 1.0).
Proof.
  exists (if sn <? 10 then 1.0 - df - 0.1 else 1.0 - df).
  split; [reflexivity |].
  destruct (sn <? 10) eqn:E.
  - apply Qltb_lt in E. repeat split; intros; try reflexivity; lra.
  - apply Qltb_ge in E. repeat split; intros; try reflexivity; lra.
Qed.

(** ** Purity *)

(** C7: [decide_growth_and_fruit_production], [assess_health] and
    [photosynthesis] write nothing: each leaves its aspect, and the tree
    that holds it, as it found it, so a second call with the same arguments
    returns what the first returned; the results of the first two depend on
    their arguments alone. *)
Theorem C7_pure `{math.Lib} :
  (forall sn d a ts h, exists r,
      (forall self,
          LogicAspect.decide_growth_and_fruit_production sn d a ts h self
          = (Ok r, self))
      /\ (forall self,
          twice (LogicAspect.decide_growth_and_fruit_production sn d a ts h) self
          = (Ok (r, r), self))
      /\ (forall tree,
          Tree.on_logic (LogicAspect.decide_growth_and_fruit_production sn d a ts h) tree
          = (Ok r, tree)))
  /\ (forall sn df, exists health,
      (forall self, ControlAspect.assess_health sn df self = (Ok health, self))
      /\ (forall self,
          twice (ControlAspect.assess_health sn df) self = (Ok (health, health), self))
      /\ (forall tree,
          Tree.on_control (ControlAspect.assess_health sn df) tree = (Ok health, tree)))
  /\ (forall d T h c a self,
      let call := EnergyAspect.photosynthesis d T h c a in
      snd (call self) = self
      /\ call (snd (call self)) = call self
      /\ (forall tree, snd (Tree.on_energy call tree) = tree)).
Proof.
  split; [| split].
  - intros sn d a ts h.
    destruct (LogicAspectFacts.decide_returns (LogicAspect.init ∅ ∅ ∅) sn d a ts h)
      as [r Hr].
    exists r.
    assert (E : forall self,
      LogicAspect.decide_growth_and_fruit_production sn d a ts h self = (Ok r, self)).
    { intros self. revert Hr.
      unfold LogicAspect.decide_growth_and_fruit_production,
        LogicAspect.seasonal_multiplier, mbind, Py_bind, mret, Py_ret.
      destruct (LogicAspect.fruiting sn d a); intros [= <-]; reflexivity. }
    split; [exact E | split].
    + intros self. apply twice_ok, E.
    + intros [a0 e l c0]. rewrite (TreeFacts.on_logic_ok _ _ _ _ (E _)). reflexivity.
  - intros sn df.
    exists (if sn <? 10 then 1.0 - df - 0.1 else 1.0 - df).
    split; [reflexivity | split].
    + intros self. apply twice_ok. reflexivity.
    + intros [a0 e l c0]. reflexivity.
  - intros d T h c a self call.
    assert (K : forall self, snd (call self) = self).
    { intros self0. unfold call, EnergyAspect.photosynthesis, EnergyAspect.state_get.
      change self0 with (id self0) at 2. apply (keeps_bind id). 
      - apply keeps_get.
      - intros x. keeps_tac. }
    split; [apply K | split].
    + rewrite K. reflexivity.
    + intros [a0 e l c0]. unfold Tree.on_energy, zoom. cbn [Tree.energy].
      specialize (K e). destruct (call e) as [r e']. simpl in K. subst e'. reflexivity.
Qed.

(** ** Age and leaves *)

(** C3: [daily_update] adds exactly 1/365 to the age, whatever it is given and
    whether it returns or raises; [get_data] and the methods of the three
    aspects leave the age alone. *)
Theorem C3_age `{math.Lib} :
  (forall tree s w d T h c df,
      Tree.age (snd (Tree.daily_update s w d T h c df tree)) = Tree.age tree + 1 / 365)
  /\ (forall tree, snd (Tree.get_data tree) = tree)
  /\ (forall A (m : Py EnergyAspect.t A), keeps Tree.age (Tree.on_energy m))
  /\ (forall A (m : Py LogicAspect.t A), keeps Tree.age (Tree.on_logic m))
  /\ (forall A (m : Py ControlAspect.t A), keeps Tree.age (Tree.on_control m)).
Proof.
  split; [| split; [| split; [| split]]].
  - intros. apply Frame.daily_update_age.
  - apply Frame.get_data_keeps.
  - intros A m. apply Frame.on_energy_keeps_age.
  - intros A m. apply Frame.on_logic_keeps_age.
  - intros A m. apply Frame.on_control_keeps_age.
Qed.

(** C4: after [daily_update], whatever the tree was and whatever else the
    call was given, [has_leaves] is false when day_of_year is in [330, 365] or
    in [1, 60] and true otherwise: it is a function of day_of_year alone. *)
Theorem C4_has_leaves `{math.Lib} tree s w d T h c df :
  let leaves :=
    EnergyAspect.has_leaves
      (Tree.energy (snd (Tree.daily_update s w d T h c df tree))) in
  (leaves = false <-> (330 <= d <= 365 \/ 1 <= d <= 60))
  /\ (leaves = true <-> ~ (330 <= d <= 365 \/ 1 <= d <= 60))
  /\ (forall tree' s' w' T' h' c' df',
        EnergyAspect.has_leaves
          (Tree.energy (snd (Tree.daily_update s' w' d T' h' c' df' tree')))
        = leaves).
Proof.
  pose proof (fun tree s w T h c df =>
                Frame.daily_update_has_leaves tree s w d T h c df) as E.
  intros leaves. unfold leaves. rewrite E.
  rewrite <- TreeFacts.leafless_true.
  destruct (Tree.leafless d); cbn [negb] in *;
    (split; [| split]); first [ intuition congruence | intros; apply E ].
Qed.

(** ** Energy *)

(** C6: on an aspect whose state holds the numbers stored_nutrients and
    tree_size, [generate_energy] without leaves returns 0 and still takes
    0.05 * tree_size, plus 0.02 * stored_nutrients when stored_nutrients > 20,
    from stored_nutrients; with leaves it returns energy_generated minus what
    [respiration_and_growth] then consumed. *)
Theorem C6_net_energy `{math.Lib} self s w d T h c sn ts :
  num_at (EnergyAspect.state self) "stored_nutrients" = Some sn ->
  num_at (EnergyAspect.state self) "tree_size" = Some ts ->
  (EnergyAspect.has_leaves self = false ->
     exists self',
       EnergyAspect.generate_energy s w d T h c self = (Ok 0, self')
       /\ num_at (EnergyAspect.state self') "stored_nutrients"
          = Some (sn - (0.05 * ts + (if 20 <? sn then 0.02 * sn else 0))))
  /\ (EnergyAspect.has_leaves self = true ->
     exists efficiency consumed self',
       EnergyAspect.photosynthesis d T h c 1 self = (Ok efficiency, self)
       /\ let energy_generated := s * w * 0.1 * efficiency in
          let fed :=
            EnergyAspect.set_state
              (<["stored_nutrients" := VNum (sn + energy_generated)]>
                 (EnergyAspect.state self)) self in
          EnergyAspect.respiration_and_growth fed = (Ok consumed, self')
          /\ EnergyAspect.generate_energy s w d T h c self
             = (Ok (energy_generated - consumed), self')
          /\ consumed
             = 0.05 * ts
               + (if 20 <? sn + energy_generated
                  then 0.02 * (sn + energy_generated) else 0)
          /\ num_at (EnergyAspect.state self') "stored_nutrients"
             = Some (sn + energy_generated - consumed)).
Proof.
  intros Hsn Hts. split; intros L.
  - eexists. split.
    + apply (EnergyAspectFacts.generate_energy_leafless self s w d T h c sn ts L Hsn Hts).
    + apply EnergyAspectFacts.respired_stored_nutrients.
  - eexists _, _, _. split.
    { apply (EnergyAspectFacts.photosynthesis_leaves self d T h c 1 ts L Hts). }
    cbv zeta. split; [| split; [| split]].
    + apply EnergyAspectFacts.respiration_and_growth_ok.
      * apply num_at_insert_eq.
      * cbn [EnergyAspect.state EnergyAspect.set_state].
        rewrite num_at_insert_ne by discriminate. exact Hts.
    + apply (EnergyAspectFacts.generate_energy_leaves self s w d T h c sn ts L Hsn Hts).
    + reflexivity.
    + apply EnergyAspectFacts.respired_stored_nutrients.
Qed.

Lemma C6_net_energy_witness :
  (exists self',
      EnergyAspect.generate_energy (H := math.rational) 1 1 1 20 50 400
        (sample_aspect false) = (Ok 0, self')
      /\ num_at (EnergyAspect.state self') "stored_nutrients"
         = Some (50 - (0.05 * 1.0 + (if 20 <? 50 then 0.02 * 50 else 0))))
  /\ (exists net self',
      EnergyAspect.generate_energy (H := math.rational) 1 1 200 20 50 400
        (sample_aspect true) = (Ok net, self')).
Proof.
  split.
  - apply (C6_net_energy (H := math.rational) (sample_aspect false)
             1 1 1 20 50 400 50 1.0); reflexivity.
  - destruct (proj2 (C6_net_energy (H := math.rational) (sample_aspect true)
                       1 1 200 20 50 400 50 1.0 eq_refl eq_refl) eq_refl)
      as (efficiency & consumed & self' & _ & _ & E & _).
    exists (1 * 1 * 0.1 * efficiency - consumed), self'. exact E.
Defined.

(** ** Tree size *)

(** C9: on a tree whose state holds the numbers stored_nutrients and
    tree_size, [daily_update] returns, and leaves tree_size either as it was
    or greater by exactly 0.01: greater exactly when the nutrients left by the
    subtraction in [respiration_and_growth] exceed 20.  That subtraction and
    increment are what [respiration_and_growth] does; [photosynthesis],
    [water_requirement], the methods of the other two aspects and [get_data]
    leave the state of the energy aspect alone. *)
Theorem C9_tree_size_step `{math.Lib} tree s w d T h c df sn ts :
  stored_nutrients tree = Some sn ->
  tree_size tree = Some ts ->
  (exists tree' efficiency,
      Tree.daily_update s w d T h c df tree = (Ok tt, tree')
      /\ (let in_leaf := EnergyAspect.set_has_leaves true (Tree.energy tree) in
          EnergyAspect.photosynthesis d T h c 1 in_leaf = (Ok efficiency, in_leaf))
      /\ let fed := if Tree.leafless d then sn else sn + s * w * 0.1 * efficiency in
         let left := fed - (0.05 * ts + (if 20 <? fed then 0.02 * fed else 0)) in
         tree_size tree' = Some (if 20 <? left then ts + 0.01 else ts))
  /\ (forall self sn ts,
      num_at (EnergyAspect.state self) "stored_nutrients" = Some sn ->
      num_at (EnergyAspect.state self) "tree_size" = Some ts ->
      exists consumed self',
        EnergyAspect.respiration_and_growth self = (Ok consumed, self')
        /\ consumed = 0.05 * ts + (if 20 <? sn then 0.02 * sn else 0)
        /\ num_at (EnergyAspect.state self') "stored_nutrients" = Some (sn - consumed)
        /\ num_at (EnergyAspect.state self') "tree_size"
           = Some (if 20 <? sn - consumed then ts + 0.01 else ts))
  /\ (forall d T h c a, keeps EnergyAspect.state (EnergyAspect.photosynthesis d T h c a))
  /\ (forall T, keeps EnergyAspect.state (EnergyAspect.water_requirement T))
  /\ (forall A (m : Py LogicAspect.t A), keeps Tree.energy (Tree.on_logic m))
  /\ (forall A (m : Py ControlAspect.t A), keeps Tree.energy (Tree.on_control m))
  /\ (forall tree, snd (Tree.get_data tree) = tree).
Proof.
  intros Hsn Hts. split; [| split; [| split; [| split; [| split; [| split]]]]].
  - destruct (TreeFacts.daily_update_ok tree s w d T h c df sn ts Hsn Hts)
      as (tree' & health & g & u & f & Hrun & _ & _ & _ & _ & _ & Hsize & _).
    exists tree',
      (photosynthesized
         (EnergyAspect.latitude (Tree.energy tree)) d T h c 1 ts).
    split; [exact Hrun | split].
    + cbv zeta.
      apply (EnergyAspectFacts.photosynthesis_leaves
               (EnergyAspect.set_has_leaves true (Tree.energy tree)) d T h c 1 ts);
        [reflexivity | exact Hts].
    + cbv zeta. rewrite Hsize. unfold fed_nutrients.
      destruct (Tree.leafless d); reflexivity.
  - clear. intros self sn ts Hsn Hts. eexists _, _. split; [| split; [| split]].
    + apply (EnergyAspectFacts.respiration_and_growth_ok self sn ts Hsn Hts).
    + reflexivity.
    + apply EnergyAspectFacts.respired_stored_nutrients.
    + apply EnergyAspectFacts.respired_tree_size. exact Hts.
  - intros. apply Frame.photosynthesis_keeps_state.
  - intros. apply Frame.water_requirement_keeps_state.
  - intros. apply Frame.on_logic_keeps_energy.
  - intros. apply Frame.on_control_keeps_energy.
  - apply Frame.get_data_keeps.
Qed.

Lemma C9_tree_size_step_witness :
  exists tree',
    daily_update_with (H := math.rational) sample_day sample_tree = (Ok tt, tree')
    /\ (tree_size tree' = Some 1.0 \/ tree_size tree' = Some (1.0 + 0.01)).
Proof.
  destruct (proj1 (C9_tree_size_step (H := math.rational) sample_tree
                     1.0 1.0 200 20 50 400 0.0 50 1.0 eq_refl eq_refl))
    as (tree' & efficiency & Hrun & _ & Hsize).
  exists tree'. split; [exact Hrun |].
  cbv zeta in Hsize.
  match type of Hsize with
  | _ = Some (if ?b then _ else _) => destruct b
  end; [right | left]; exact Hsize.
Defined.

(** C2: over any sequence of [daily_update] calls on a tree whose state holds
    the numbers stored_nutrients and tree_size, every call returns and
    tree_size after a call is at least tree_size before it. *)
Theorem C2_tree_size_non_decreasing `{math.Lib} days tree sn ts :
  stored_nutrients tree = Some sn ->
  tree_size tree = Some ts ->
  length (trees_after tree days) = length days
  /\ forall i before after,
       (tree :: trees_after tree days) !! i = Some before ->
       trees_after tree days !! i = Some after ->
       exists x y,
         tree_size before = Some x /\ tree_size after = Some y /\ x <= y.
Proof.
  revert tree sn ts. induction days as [| day0 days IH]; intros tree sn ts Hsn Hts.
  - split; [reflexivity |]. intros i before after _ Hafter. destruct i; discriminate.
  - destruct (TreeFacts.daily_update_ok tree (sunlight day0) (water day0)
                (day_of_year day0) (temperature day0) (humidity day0)
                (CO2_concentration day0) (disease_factor day0) sn ts Hsn Hts)
      as (tree' & health & g & u & f & Hrun & _ & _ & _ & _ & _ & Hsize & Hleft & _).
    cbn [trees_after]. unfold daily_update_with. rewrite Hrun.
    destruct (IH tree' _ _ Hleft Hsize) as [Hlen Hstep].
    split; [cbn [length]; rewrite Hlen; reflexivity |].
    intros [| i] before after Hbefore Hafter.
    + injection Hbefore as <-. injection Hafter as <-.
      eexists _, _. split; [exact Hts | split; [exact Hsize |]].
      match goal with |- _ <= (if ?b then _ else _) => destruct b end; lra.
    + apply (Hstep i before after Hbefore Hafter).
Qed.

Lemma C2_tree_size_non_decreasing_witness :
  length (trees_after (H := math.rational) sample_tree [sample_day; sample_day]) = 2%nat
  /\ forall i before after,
       (sample_tree :: trees_after (H := math.rational) sample_tree [sample_day; sample_day])
         !! i = Some before ->
       trees_after (H := math.rational) sample_tree [sample_day; sample_day] !! i
         = Some after ->
       exists x y,
         tree_size before = Some x /\ tree_size after = Some y /\ x <= y.
Proof.
  apply (C2_tree_size_non_decreasing (H := math.rational)
           [sample_day; sample_day] sample_tree 50 1.0); reflexivity.
Defined.

(** ** Reading the data *)

(** C8: on a tree just made by [__init__], [get_data] raises [KeyError]:
    the output dictionaries hold none of "growth_rate", "fruit_count" and
    "health_status".  After one [daily_update], which returns whatever it is
    given, [get_data] returns. *)
Theorem C8_fresh_tree_has_no_data `{math.Lib} latitude initial_nutrients :
  let tree := Tree.init latitude initial_nutrients in
  Tree.get_data tree = (Raise (KeyError "growth_rate"), tree)
  /\ EnergyAspect.output (Tree.energy tree) !! "growth_rate" = None
  /\ LogicAspect.output (Tree.logic tree) !! "fruit_count" = None
  /\ ControlAspect.output (Tree.control tree) !! "health_status" = None
  /\ forall s w d T h c df,
       exists tree' data,
         Tree.daily_update s w d T h c df tree = (Ok tt, tree')
         /\ Tree.get_data tree' = (Ok data, tree').
Proof.
  intros tree. split; [reflexivity | split; [reflexivity | split; [reflexivity | split]]].
  - reflexivity.
  - intros s w d T h c df.
    assert (Hsn : stored_nutrients tree = Some initial_nutrients) by reflexivity.
    assert (Hts : tree_size tree = Some 1.0) by reflexivity.
    destruct (TreeFacts.daily_update_ok tree s w d T h c df _ _ Hsn Hts)
      as (tree' & health & g & u & f & Hrun & _ & _ & _ & _ & _
          & Hsize & Hleft & Hg & Hf & Hh & Hs).
    exists tree'. 
    unfold tree_size, stored_nutrients, num_at in Hsize, Hleft.
    destruct (EnergyAspect.state (Tree.energy tree') !! "tree_size") as [vts |] eqn:Ets;
      [| discriminate].
    destruct (EnergyAspect.state (Tree.energy tree') !! "stored_nutrients")
      as [vsn |] eqn:Esn; [| discriminate].
    eexists. split; [exact Hrun |].
    unfold Tree.get_data.
    rewrite (bind_ok get _ tree' tree' tree' eq_refl).
    unfold getitem. rewrite Esn, Hg, Ets, Hf, Hh, Hs. reflexivity.
Qed.

(** * Further properties *)

(** ** What [decide_growth_and_fruit_production] returns *)

Module DecideFacts.
Import LogicAspect.

(** The fruit a tree with more than 10 nutrients bears. *)
Lemma fruit_bounds sn h :
  10 < sn ->
  let fruit := py_int (floordiv sn 10 * py_max 0.5 h) in
  (0 <= fruit)%Z /\ (h <= 1 -> inject_Z fruit * 10 <= sn).
Proof.
  intros Hsn fruit.
  assert (Hq : 1 <= sn / 10).
  { apply Qle_shift_div_l; [reflexivity | lra]. }
  assert (H1 : 1 <= inject_Z (Qfloor (sn / 10))).
  { change 1 with (inject_Z 1). rewrite <- Zle_Qle.
    change 1%Z with (Qfloor (inject_Z 1)). apply Qfloor_resp_le. exact Hq. }
  pose proof (Qfloor_le (sn / 10)) as H2.
  destruct (py_max_lub 0.5 h) as [Hm1 Hm2].
  assert (Hpos : 0 <= floordiv sn 10 * py_max 0.5 h) by (unfold floordiv; nra).
  unfold fruit. rewrite (py_int_nonneg _ Hpos). split.
  - change 0%Z with (Qfloor (inject_Z 0)). apply Qfloor_resp_le. exact Hpos.
  - intros Hh.
    assert (Hm : py_max 0.5 h <= 1).
    { unfold py_max. destruct (0.5 <? h); lra. }
    pose proof (Qfloor_le (floordiv sn 10 * py_max 0.5 h)) as H3.
    assert (H4 : floordiv sn 10 * py_max 0.5 h <= sn / 10) by (unfold floordiv in *; nra).
    assert (H5 : sn / 10 * 10 == sn) by field.
    nra.
Qed.

Section WithMath.
Context `{math.Lib}.

Lemma decide_run self sn d a ts h :
  exists growth_rate,
    decide_growth_and_fruit_production sn d a ts h self
    = (Ok (if fruiting sn d a
           then (growth_rate,
                 sn - inject_Z (py_int (floordiv sn 10 * py_max 0.5 h)) * 0.5,
                 py_int (floordiv sn 10 * py_max 0.5 h))
           else (growth_rate, sn, 0%Z)), self)
    /\ growth_rate
       = sn * 0.1 * (1 - 0.8 * math.cos (math.pi * d / 182.5))
         * ((1 + 0.05 * ts) * h).
Proof.
  unfold decide_growth_and_fruit_production, seasonal_multiplier,
    mbind, Py_bind, mret, Py_ret.
  eexists. split; [| reflexivity].
  destruct (fruiting sn d a); reflexivity.
Qed.
End WithMath.
End DecideFacts.

(** X1: whatever it is given, the call returns a fruit_count that is not
    negative, and the nutrients it returns are the ones it was given less
    half a unit for each fruit: they never grow. *)
Theorem X1_fruit_costs_nutrients `{math.Lib} self sn d a ts h :
  exists growth_rate updated_nutrients fruit_count,
    LogicAspect.decide_growth_and_fruit_production sn d a ts h self
    = (Ok (growth_rate, updated_nutrients, fruit_count), self)
    /\ (0 <= fruit_count)%Z
    /\ updated_nutrients == sn - inject_Z fruit_count * 0.5
    /\ updated_nutrients <= sn.
Proof.
  destruct (DecideFacts.decide_run self sn d a ts h) as (g & Hrun & _).
  destruct (LogicAspect.fruiting sn d a) eqn:F.
  - apply LogicAspectFacts.fruiting_true in F. destruct F as (_ & Hsn & _).
    destruct (DecideFacts.fruit_bounds sn h Hsn) as [H0 _].
    eexists _, _, _. split; [exact Hrun |].
    split; [exact H0 | split; [reflexivity |]].
    rewrite Zle_Qle in H0. change (inject_Z 0) with 0 in H0. lra.
  - eexists _, _, _. split; [exact Hrun |].
    split; [reflexivity | split; [| lra]].
    change (inject_Z 0) with 0. ring.
Qed.



(** X3: where the cosine of the library lies in [-1, 1], the seasonal
    multiplier is positive and at most 1.8, and the growth rate of a tree
    whose nutrients, size and health are not negative is not negative: the
    season slows growth down but never reverses it. *)
Theorem X3_seasonal_bounds `{math.Lib} self sn d a ts h :
  -1 <= math.cos (math.pi * d / 182.5) <= 1 ->
  (exists seasonal,
      LogicAspect.seasonal_multiplier d self = (Ok seasonal, self)
      /\ 0 < seasonal <= 1.8)
  /\ (0 <= sn -> 0 <= ts -> 0 <= h ->
      exists growth_rate updated_nutrients fruit_count,
        LogicAspect.decide_growth_and_fruit_production sn d a ts h self
        = (Ok (growth_rate, updated_nutrients, fruit_count), self)
        /\ 0 <= growth_rate).
Proof.
  intros Hcos. split.
  - eexists. split; [reflexivity |].
    set (c := math.cos (math.pi * d / 182.5)) in *. clearbody c. lra.
  - intros Hsn Hts Hh.
    destruct (DecideFacts.decide_run self sn d a ts h) as (g & Hrun & Hg).
    assert (Hb : 0 <= g).
    { rewrite Hg.
      set (c := math.cos (math.pi * d / 182.5)) in *. clearbody c.
      assert (Hm : 0 <= (1 + 0.05 * ts) * h) by (apply Qmult_le_0_compat; lra).
      assert (Hp : 0 <= sn * ((1 + 0.05 * ts) * h))
        by (apply Qmult_le_0_compat; assumption).
      set (p := sn * ((1 + 0.05 * ts) * h)) in *.
      assert (E : sn * 0.1 * (1 - 0.8 * c) * ((1 + 0.05 * ts) * h)
                  == 0.1 * (1 - 0.8 * c) * p) by (unfold p; ring).
      rewrite E. clearbody p. nra. }
    destruct (LogicAspect.fruiting sn d a);
      eexists _, _, _; (split; [exact Hrun | exact Hb]).
Qed.

Lemma X3_seasonal_bounds_witness :
  exists seasonal,
    LogicAspect.seasonal_multiplier (H := math.rational) 0 (LogicAspect.init ∅ ∅ ∅)
    = (Ok seasonal, LogicAspect.init ∅ ∅ ∅)
    /\ 0 < seasonal <= 1.8.
Proof.
  apply (X3_seasonal_bounds (H := math.rational) (LogicAspect.init ∅ ∅ ∅) 1 0 1 1 1).
  split; Qcmp.
Defined.

(** ** Exceptions *)

Module Failure.
Import EnergyAspect EnergyAspectFacts.

Lemma state_get_raise self k :
  num_at (state self) k = None ->
  exists e, state_get k self = (Raise e, self) /\ (e = KeyError k \/ e = TypeError).
Proof.
  unfold num_at, state_get, getitem. intros E.
  unfold mbind at 1, Py_bind, get.
  destruct (state self !! k) as [[q | s] |]; simpl in E; try discriminate.
  - exists TypeError. split; [reflexivity | right; reflexivity].
  - exists (KeyError k). split; [reflexivity | left; reflexivity].
Qed.

Lemma respiration_and_growth_raise self :
  num_at (state self) "stored_nutrients" = None
  \/ num_at (state self) "tree_size" = None ->
  exists e, respiration_and_growth self = (Raise e, self) /\ read_error e.
Proof.
  intros Hnone. unfold respiration_and_growth, read_error.
  destruct (num_at (state self) "tree_size") as [ts |] eqn:Hts.
  - destruct Hnone as [Hsn | ?]; [| discriminate].
    rewrite (bind_ok _ _ _ _ _ (state_get_ok _ _ _ Hts)).
    destruct (state_get_raise self _ Hsn) as (e & He & Hk).
    rewrite (bind_raise _ _ _ _ _ He). exists e. intuition.
  - destruct (state_get_raise self _ Hts) as (e & He & Hk).
    rewrite (bind_raise _ _ _ _ _ He). exists e. intuition.
Qed.

Section WithMath.
Context `{math.Lib}.

Lemma generate_energy_raise self s w d T h c :
  num_at (state self) "stored_nutrients" = None
  \/ num_at (state self) "tree_size" = None ->
  exists e, generate_energy s w d T h c self = (Raise e, self) /\ read_error e.
Proof.
  intros Hnone. unfold generate_energy.
  rewrite (bind_ok get _ self self self eq_refl).
  destruct (has_leaves self) eqn:L.
  - assert (Hfed : exists e,
      (photosynthesis_efficiency ← photosynthesis d T h c 1;
       let energy_generated := s * w * 0.1 * photosynthesis_efficiency in
       stored_nutrients ← state_get "stored_nutrients";
       state_put "stored_nutrients" (stored_nutrients + energy_generated);;
       mret (Some energy_generated)) self = (Raise e, self) /\ read_error e).
    { unfold read_error.
      destruct (num_at (state self) "tree_size") as [ts |] eqn:Hts.
      - destruct Hnone as [Hsn | ?]; [| discriminate].
        rewrite (bind_ok _ _ _ _ _ (photosynthesis_leaves self d T h c 1 ts L Hts)).
        cbv zeta. destruct (state_get_raise self _ Hsn) as (e & He & Hk).
        rewrite (bind_raise _ _ _ _ _ He). exists e. intuition.
      - assert (Hp : exists e, photosynthesis d T h c 1 self = (Raise e, self)
                               /\ (e = KeyError "tree_size" \/ e = TypeError)).
        { unfold photosynthesis.
          rewrite (bind_ok get _ self self self eq_refl). rewrite L. cbn [negb].
          destruct (state_get_raise self _ Hts) as (e & He & Hk).
          rewrite (bind_raise _ _ _ _ _ He). exists e. split; [reflexivity | exact Hk]. }
        destruct Hp as (e & He & Hk).
        rewrite (bind_raise _ _ _ _ _ He). exists e. intuition. }
    destruct Hfed as (e & He & Hk).
    rewrite (bind_raise _ _ _ _ _ He). exists e. split; [reflexivity | exact Hk].
  - rewrite (bind_ok (mret None) _ self None self eq_refl).
    destruct (respiration_and_growth_raise self Hnone) as (e & He & Hk).
    rewrite (bind_raise _ _ _ _ _ He). exists e. split; [reflexivity | exact Hk].
Qed.

Lemma daily_update_raise tree s w d T h c df :
  stored_nutrients tree = None \/ tree_size tree = None ->
  exists e,
    Tree.daily_update s w d T h c df tree
    = (Raise e,
       Tree.set_energy
         (set_has_leaves (negb (Tree.leafless d)) (Tree.energy tree))
         (Tree.set_age (Tree.age tree + 1 / 365) tree))
    /\ read_error e.
Proof.
  intros Hnone. unfold stored_nutrients, tree_size in Hnone.
  destruct tree as [age0 e0 l ct]. cbn [Tree.energy] in Hnone.
  destruct (generate_energy_raise
              (set_has_leaves (negb (Tree.leafless d)) e0) s w d T h c Hnone)
    as (e & He & Hk).
  exists e. split; [| exact Hk].
  unfold Tree.daily_update.
  erewrite bind_ok by reflexivity.
  erewrite bind_ok by (apply TreeFacts.on_energy_ok; reflexivity).
  erewrite bind_raise by (apply TreeFacts.on_energy_ok; exact He).
  reflexivity.
Qed.
End WithMath.

Lemma some_or_none (o1 o2 : option Q) :
  (exists x y, o1 = Some x /\ o2 = Some y) \/ (o1 = None \/ o2 = None).
Proof. destruct o1, o2; eauto. Qed.

(** The first read of [respiration_and_growth] is "tree_size". *)
Lemma respiration_and_growth_key self :
  state self !! "tree_size" = None ->
  respiration_and_growth self = (Raise (KeyError "tree_size"), self).
Proof.
  intros E. unfold respiration_and_growth.
  apply bind_raise. unfold state_get, getitem.
  rewrite (bind_ok get _ self self self eq_refl). rewrite E. reflexivity.
Qed.
End Failure.

(** X4: [respiration_and_growth] reads both numbers before it writes: when
    the state holds no number under "stored_nutrients" or under "tree_size",
    the call raises and leaves the aspect as it was; when "tree_size" is
    missing, the exception is the [KeyError] of "tree_size", the first key
    read. *)
Theorem X4_respiration_raises_before_writing self :
  num_at (EnergyAspect.state self) "stored_nutrients" = None
  \/ num_at (EnergyAspect.state self) "tree_size" = None ->
  exists e,
    EnergyAspect.respiration_and_growth self = (Raise e, self)
    /\ (EnergyAspect.state self !! "tree_size" = None -> e = KeyError "tree_size").
Proof.
  intros Hnone.
  destruct (Failure.respiration_and_growth_raise self Hnone) as (e & He & _).
  exists e. split; [exact He |].
  intros Hkey. rewrite (Failure.respiration_and_growth_key self Hkey) in He.
  injection He as <-. reflexivity.
Qed.

Lemma X4_respiration_raises_before_writing_witness :
  exists e,
    EnergyAspect.respiration_and_growth bare_aspect = (Raise e, bare_aspect)
    /\ (EnergyAspect.state bare_aspect !! "tree_size" = None
        -> e = KeyError "tree_size").
Proof.
  apply (X4_respiration_raises_before_writing bare_aspect).
  left. reflexivity.
Defined.

(** X5: [generate_energy] writes nothing before it has read both numbers:
    when the state holds no number under "stored_nutrients" or under
    "tree_size", the call raises and leaves the aspect as it was, in leaf or
    not.  Whatever the state, the call never raises the [UnboundLocalError]
    of its local variable energy_generated, which is read only where it was
    bound. *)
Theorem X5_generate_energy_raises_before_writing `{math.Lib} self s w d T h c :
  (forall x,
     fst (EnergyAspect.generate_energy s w d T h c self)
     <> Raise (UnboundLocalError x))
  /\ (num_at (EnergyAspect.state self) "stored_nutrients" = None
      \/ num_at (EnergyAspect.state self) "tree_size" = None ->
      exists e, EnergyAspect.generate_energy s w d T h c self = (Raise e, self)).
Proof.
  destruct (Failure.some_or_none
              (num_at (EnergyAspect.state self) "stored_nutrients")
              (num_at (EnergyAspect.state self) "tree_size"))
    as [(sn & ts & Hsn & Hts) | Hnone].
  - destruct (EnergyAspectFacts.generate_energy_ok self s w d T h c sn ts Hsn Hts)
      as (r & self' & Hrun & _).
    rewrite Hrun. split; [intros x; discriminate |].
    rewrite Hsn, Hts. intros [? | ?]; discriminate.
  - destruct (Failure.generate_energy_raise self s w d T h c Hnone) as (e & He & Hk).
    rewrite He. split; [| intros _; exists e; reflexivity].
    intros x E. cbn [fst] in E. injection E as ->.
    destruct Hk as [Hk | [Hk | Hk]]; discriminate.
Qed.

Lemma X5_generate_energy_raises_before_writing_witness :
  exists e,
    EnergyAspect.generate_energy (H := math.rational) 1.0 1.0 200 20 50 400
      bare_aspect
    = (Raise e, bare_aspect).
Proof.
  apply (proj2 (X5_generate_energy_raises_before_writing (H := math.rational)
                  bare_aspect 1.0 1.0 200 20 50 400)).
  left. reflexivity.
Defined.

(** X6: a [daily_update] of a tree whose energy state holds no number under
    "stored_nutrients" or under "tree_size" raises.  It has then aged the
    tree by 1/365 and set has_leaves from day_of_year; everything else is as
    it was. *)
Theorem X6_daily_update_raises_after_ageing `{math.Lib} tree s w d T h c df :
  stored_nutrients tree = None \/ tree_size tree = None ->
  exists e,
    Tree.daily_update s w d T h c df tree
    = (Raise e,
       Tree.set_energy
         (EnergyAspect.set_has_leaves (negb (Tree.leafless d)) (Tree.energy tree))
         (Tree.set_age (Tree.age tree + 1 / 365) tree)).
Proof.
  intros Hnone.
  destruct (Failure.daily_update_raise tree s w d T h c df Hnone) as (e & He & _).
  exists e. exact He.
Qed.

Lemma X6_daily_update_raises_after_ageing_witness :
  exists e,
    daily_update_with (H := math.rational) sample_day bare_tree
    = (Raise e,
       Tree.set_energy
         (EnergyAspect.set_has_leaves (negb (Tree.leafless 200))
            (Tree.energy bare_tree))
         (Tree.set_age (Tree.age bare_tree + 1 / 365) bare_tree)).
Proof.
  apply (X6_daily_update_raises_after_ageing (H := math.rational) bare_tree
           1.0 1.0 200 20 50 400 0.0).
  left. reflexivity.
Defined.

(** ** Respiration and growth *)






(** ** Days and sequences of days *)

Module DayFacts.
Section WithMath.
Context `{math.Lib}.

(** A leafless day is outside the fruiting season. *)
Lemma leafless_not_fruiting sn d a :
  Tree.leafless d = true -> LogicAspect.fruiting sn d a = false.
Proof.
  intros L. apply TreeFacts.leafless_true in L.
  apply LogicAspectFacts.fruiting_false. right. right.
  destruct L as [[L _] | [_ L]]; [right; left | left]; lra.
Qed.

(** The tree after the call number [i] (from 0) of a sequence, and its size. *)
Lemma trees_after_size days : forall tree sn ts i,
  stored_nutrients tree = Some sn ->
  tree_size tree = Some ts ->
  (i < length days)%nat ->
  exists after sn' ts',
    trees_after tree days !! i = Some after
    /\ stored_nutrients after = Some sn'
    /\ tree_size after = Some ts'
    /\ ts <= ts'.
Proof.
  induction days as [| day0 days IH]; intros tree sn ts i Hsn Hts Hi.
  - cbn in Hi. lia.
  - destruct (TreeFacts.daily_update_ok tree (sunlight day0) (water day0)
                (day_of_year day0) (temperature day0) (humidity day0)
                (CO2_concentration day0) (disease_factor day0) sn ts Hsn Hts)
      as (tree' & health & g & u & f & Hrun & _ & _ & _ & _ & _ & Hsize & Hleft & _).
    cbn [trees_after]. unfold daily_update_with. rewrite Hrun.
    match type of Hsize with
    | _ = Some ?x => assert (Hstep : ts <= x)
    end.
    { match goal with |- _ <= (if ?b then _ else _) => destruct b end; lra. }
    destruct i as [| i].
    + eexists _, _, _. split; [reflexivity |].
      split; [exact Hleft | split; [exact Hsize | exact Hstep]].
    + cbn in Hi. assert (Hi' : (i < length days)%nat) by lia.
      destruct (IH tree' _ _ i Hleft Hsize Hi')
        as (after & sn' & ts' & Hat & Hsn' & Hts' & Hb).
      exists after, sn', ts'. split; [exact Hat |].
      split; [exact Hsn' | split; [exact Hts' | lra]].
Qed.
End WithMath.
End DayFacts.

(** X9: on a leafless day (day_of_year in [330, 365] or in [1, 60]) a
    [daily_update] of a tree that holds the two numbers returns, whatever the
    sunlight, water and weather: the nutrients lose what respiration consumes,
    0.05 * tree_size plus 0.02 * stored_nutrients when stored_nutrients > 20,
    and nothing else, and the fruit count written is 0. *)
Theorem X9_leafless_day `{math.Lib} tree s w d T h c df sn ts :
  stored_nutrients tree = Some sn ->
  tree_size tree = Some ts ->
  330 <= d <= 365 \/ 1 <= d <= 60 ->
  exists tree',
    Tree.daily_update s w d T h c df tree = (Ok tt, tree')
    /\ EnergyAspect.has_leaves (Tree.energy tree') = false
    /\ stored_nutrients tree'
       = Some (sn - (0.05 * ts + (if 20 <? sn then 0.02 * sn else 0)))
    /\ LogicAspect.output (Tree.logic tree') !! "fruit_count"
       = Some (VNum (inject_Z 0)).
Proof.
  intros Hsn Hts Hd. apply TreeFacts.leafless_true in Hd.
  destruct (TreeFacts.daily_update_ok tree s w d T h c df sn ts Hsn Hts)
    as (tree' & health & g & u & f & Hrun & _ & Hdec & _ & Hleaves & _ & _
        & Hleft & _ & Hfruit & _).
  rewrite Hd in *. cbn [negb fed_nutrients] in *.
  match type of Hdec with
  | LogicAspect.decide_growth_and_fruit_production ?n ?d ?a ?t ?h ?l = _ =>
      destruct (DecideFacts.decide_run l n d a t h) as (g' & Hrun' & _);
      rewrite (DayFacts.leafless_not_fruiting n d a Hd) in Hrun'
  end.
  rewrite Hrun' in Hdec. injection Hdec as _ <- <-.
  exists tree'. repeat split; assumption.
Qed.

Lemma X9_leafless_day_witness :
  exists tree',
    Tree.daily_update (H := math.rational) 1.0 1.0 1 20 50 400 0.0 sample_tree
    = (Ok tt, tree')
    /\ EnergyAspect.has_leaves (Tree.energy tree') = false
    /\ stored_nutrients tree'
       = Some (50 - (0.05 * 1.0 + (if 20 <? 50 then 0.02 * 50 else 0)))
    /\ LogicAspect.output (Tree.logic tree') !! "fruit_count"
       = Some (VNum (inject_Z 0)).
Proof.
  apply (X9_leafless_day (H := math.rational) sample_tree
           1.0 1.0 1 20 50 400 0.0 50 1.0); try reflexivity.
  right. split; Qcmp.
Defined.

(** X10: a tree just made by [__init__] keeps both numbers through any
    sequence of [daily_update] calls, whatever the calls are given, and its
    size is never below the 1.0 it starts with. *)
Theorem X10_size_of_a_new_tree `{math.Lib} latitude initial_nutrients days i :
  (i < length days)%nat ->
  exists after sn ts,
    trees_after (Tree.init latitude initial_nutrients) days !! i = Some after
    /\ stored_nutrients after = Some sn
    /\ tree_size after = Some ts
    /\ 1.0 <= ts.
Proof.
  intros Hi.
  apply (DayFacts.trees_after_size days (Tree.init latitude initial_nutrients)
           initial_nutrients 1.0 i eq_refl eq_refl Hi).
Qed.

Lemma X10_size_of_a_new_tree_witness :
  exists after sn ts,
    trees_after (H := math.rational) (Tree.init 51.509865 50)
      [sample_day; sample_day] !! 1%nat = Some after
    /\ stored_nutrients after = Some sn
    /\ tree_size after = Some ts
    /\ 1.0 <= ts.
Proof.
  apply (X10_size_of_a_new_tree (H := math.rational) 51.509865 50
           [sample_day; sample_day] 1).
  cbn. lia.
Defined.

(** ** Photosynthesis *)

Module PhotoFacts.
Import EnergyAspect.

Lemma py_max_0 x : 0 <= py_max 0 x /\ (x <= 0 -> py_max 0 x == 0)
                   /\ (0 <= x -> py_max 0 x == x).
Proof.
  unfold py_max. destruct (0 <? x) eqn:E;
    [apply Qltb_lt in E | apply Qltb_ge in E]; repeat split; intros; lra.
Qed.

Lemma temperature_factor_cases T :
  (T <= 25 -> 1 - Qabs (25 - T) * 0.05 == 1 - (25 - T) * 0.05)
  /\ (25 <= T -> 1 - Qabs (25 - T) * 0.05 == 1 - (T - 25) * 0.05).
Proof.
  split; intros L.
  - rewrite Qabs_pos by lra. reflexivity.
  - rewrite Qabs_neg by lra. ring.
Qed.


Lemma temperature_factor_zero T :
  T <= 5 \/ 45 <= T -> temperature_factor T == 0.
Proof.
  intros HT. unfold temperature_factor.
  destruct (temperature_factor_cases T) as [Hlo Hhi].
  apply (py_max_0 (1 - Qabs (25 - T) * 0.05)).
  destruct HT as [HT | HT]; [rewrite Hlo by lra | rewrite Hhi by lra]; lra.
Qed.
End PhotoFacts.


Lemma consumption_proper a b ts : a == b -> consumption a ts == consumption b ts.
Proof.
  intros E. unfold consumption.
  destruct (20 <? a) eqn:Ea; destruct (20 <? b) eqn:Eb;
    try apply Qltb_lt in Ea; try apply Qltb_ge in Ea;
    try apply Qltb_lt in Eb; try apply Qltb_ge in Eb; lra.
Qed.

(** X13: in leaf, but without sunlight, without water, without CO2, or at 5
    degrees and below or 45 degrees and above, [generate_energy] generates
    nothing: the net energy it returns is minus what respiration consumes,
    and the nutrients lose exactly that. *)
Theorem X13_nothing_generated `{math.Lib} self s w d T h c sn ts :
  num_at (EnergyAspect.state self) "stored_nutrients" = Some sn ->
  num_at (EnergyAspect.state self) "tree_size" = Some ts ->
  EnergyAspect.has_leaves self = true ->
  s == 0 \/ w == 0 \/ c == 0 \/ T <= 5 \/ 45 <= T ->
  exists net self' sn',
    EnergyAspect.generate_energy s w d T h c self = (Ok net, self')
    /\ num_at (EnergyAspect.state self') "stored_nutrients" = Some sn'
    /\ net == - (0.05 * ts + (if 20 <? sn then 0.02 * sn else 0))
    /\ sn' == sn + net.
Proof.
  intros Hsn Hts L Hzero.
  pose proof (EnergyAspectFacts.generate_energy_leaves self s w d T h c sn ts L Hsn Hts)
    as Hrun. cbv zeta in Hrun.
  set (eg := generated (EnergyAspect.latitude self) s w d T h c ts) in *.
  assert (E0 : eg == 0).
  { unfold eg, generated, photosynthesized.
    destruct Hzero as [E | [E | [E | E]]].
    - rewrite E. ring.
    - rewrite E. ring.
    - unfold EnergyAspect.CO2_factor. rewrite E. field.
    - rewrite (PhotoFacts.temperature_factor_zero T E). ring. }
  eexists _, _, _. split; [exact Hrun |].
  split; [apply EnergyAspectFacts.respired_stored_nutrients |].
  assert (Ec : consumption (sn + eg) ts == consumption sn ts)
    by (apply consumption_proper; lra).
  fold (consumption sn ts). split; lra.
Qed.

Lemma X13_nothing_generated_witness :
  exists net self' sn',
    EnergyAspect.generate_energy (H := math.rational) 0 1 200 20 50 400
      (sample_aspect true) = (Ok net, self')
    /\ num_at (EnergyAspect.state self') "stored_nutrients" = Some sn'
    /\ net == - (0.05 * 1.0 + (if 20 <? 50 then 0.02 * 50 else 0))
    /\ sn' == 50 + net.
Proof.
  apply (X13_nothing_generated (H := math.rational) (sample_aspect true)
           0 1 200 20 50 400 50 1.0); try reflexivity.
  left. reflexivity.
Defined.

(** ** Water *)

(** X14: [water_requirement] writes nothing and returns 30/7 below 15
    degrees, 60/7 above 30 degrees and 40/7 between: a warmer day never
    requires less water. *)
Theorem X14_water_requirement_monotone self T1 T2 :
  exists r1 r2,
    EnergyAspect.water_requirement T1 self = (Ok r1, self)
    /\ EnergyAspect.water_requirement T2 self = (Ok r2, self)
    /\ 30 / 7 <= r1 <= 60 / 7
    /\ (T1 < 15 -> r1 == 30 / 7)
    /\ (15 <= T1 <= 30 -> r1 == 40 / 7)
    /\ (30 < T1 -> r1 == 60 / 7)
    /\ (T1 <= T2 -> r1 <= r2).
Proof.
  unfold EnergyAspect.water_requirement. cbv zeta.
  destruct (30 <? T1) eqn:A1; [apply Qltb_lt in A1 | apply Qltb_ge in A1];
    (destruct (T1 <? 15) eqn:B1; [apply Qltb_lt in B1 | apply Qltb_ge in B1]);
    (destruct (30 <? T2) eqn:A2; [apply Qltb_lt in A2 | apply Qltb_ge in A2]);
    (destruct (T2 <? 15) eqn:B2; [apply Qltb_lt in B2 | apply Qltb_ge in B2]);
    eexists _, _; (split; [reflexivity | split; [reflexivity |]]);
    assert (E1 : 40 / 7 * 1.5 == 60 / 7) by reflexivity;
    assert (E2 : 40 / 7 * 0.75 == 30 / 7) by reflexivity;
    assert (E3 : 30 / 7 < 40 / 7 /\ 40 / 7 < 60 / 7) by (split; reflexivity);
    destruct E3;
    set (a := 30 / 7) in *; set (b := 40 / 7) in *; set (c := 60 / 7) in *;
    clearbody a b c; repeat split; intros; lra.
Qed.

(** ** Health and the data of a day *)

Module HealthFacts.

Lemma assess_health_value self sn df health :
  ControlAspect.assess_health sn df self = (Ok health, self) ->
  health = if sn <? 10 then 1.0 - df - 0.1 else 1.0 - df.
Proof. intros E. injection E as <-. reflexivity. Qed.

Lemma health_status_cases health :
  (0.9 <= health -> Tree.health_status health = "Healthy")
  /\ (health <= 0.6 -> Tree.health_status health = "Unhealthy")
  /\ (0.6 < health < 0.9 -> Tree.health_status health = "Average").
Proof.
  unfold Tree.health_status.
  destruct (0.9 <=? health) eqn:A;
    [apply Qle_bool_iff in A | apply Qleb_gt in A];
    (destruct (health <=? 0.6) eqn:B;
     [apply Qle_bool_iff in B | apply Qleb_gt in B]);
    repeat split; intros; first [reflexivity | lra].
Qed.

(** The fruit count [decide_growth_and_fruit_production] returns. *)
Lemma fruit_count_nonneg `{math.Lib} self sn d a ts h g u f :
  LogicAspect.decide_growth_and_fruit_production sn d a ts h self = (Ok (g, u, f), self) ->
  (0 <= f)%Z.
Proof.
  intros E. destruct (DecideFacts.decide_run self sn d a ts h) as (g' & Hrun & _).
  rewrite Hrun in E. destruct (LogicAspect.fruiting sn d a) eqn:F.
  - injection E as _ _ <-. apply LogicAspectFacts.fruiting_true in F.
    apply DecideFacts.fruit_bounds. tauto.
  - injection E as _ _ <-. reflexivity.
Qed.
End HealthFacts.

(** X15: the label [daily_update] writes under "health_status" follows from
    the disease factor alone in three bands, whatever the nutrients: "Healthy"
    for a disease factor of 0 or less, "Average" for one from 0.11 to 0.29,
    "Unhealthy" for one of 0.4 or more (between the bands the label depends on
    the nutrients, or on the last place of the subtraction); the health it
    writes is within [-0.1, 1.0] for a disease factor in [0, 1]. *)
Theorem X15_disease_bands `{math.Lib} tree s w d T h c df sn ts :
  stored_nutrients tree = Some sn ->
  tree_size tree = Some ts ->
  exists tree' health,
    Tree.daily_update s w d T h c df tree = (Ok tt, tree')
    /\ ControlAspect.state (Tree.control tree') !! "health" = Some (VNum health)
    /\ ControlAspect.output (Tree.control tree') !! "health_status"
       = Some (VStr (Tree.health_status health))
    /\ (df <= 0 -> Tree.health_status health = "Healthy")
    /\ (0.11 <= df <= 0.29 -> Tree.health_status health = "Average")
    /\ (0.4 <= df -> Tree.health_status health = "Unhealthy")
    /\ (0 <= df <= 1 -> -0.1 <= health <= 1.0).
Proof.
  intros Hsn Hts.
  destruct (TreeFacts.daily_update_ok tree s w d T h c df sn ts Hsn Hts)
    as (tree' & health & g & u & f & Hrun & Hassess & _ & _ & _ & _ & _ & _ & _ & _
        & Hh & Hs).
  apply HealthFacts.assess_health_value in Hassess.
  destruct (HealthFacts.health_status_cases health) as (Hhealthy & Hunhealthy & Haverage).
  exists tree', health. split; [exact Hrun | split; [exact Hh | split; [exact Hs |]]].
  match type of Hassess with _ = if ?b then _ else _ => destruct b end;
    subst health; repeat split; intros;
    first [apply Hhealthy; lra | apply Haverage; lra | apply Hunhealthy; lra | lra].
Qed.

Lemma X15_disease_bands_witness :
  exists tree' health,
    daily_update_with (H := math.rational) sample_day sample_tree = (Ok tt, tree')
    /\ ControlAspect.state (Tree.control tree') !! "health" = Some (VNum health)
    /\ ControlAspect.output (Tree.control tree') !! "health_status"
       = Some (VStr (Tree.health_status health))
    /\ (0.0 <= 0 -> Tree.health_status health = "Healthy")
    /\ (0.11 <= 0.0 <= 0.29 -> Tree.health_status health = "Average")
    /\ (0.4 <= 0.0 -> Tree.health_status health = "Unhealthy")
    /\ (0 <= 0.0 <= 1 -> -0.1 <= health <= 1.0).
Proof.
  apply (X15_disease_bands (H := math.rational) sample_tree
           1.0 1.0 200 20 50 400 0.0 50 1.0); reflexivity.
Defined.

Module DataFacts.
Import Tree.

Lemma get_data_ok tree sn gr ts fc h hs :
  EnergyAspect.state (energy tree) !! "stored_nutrients" = Some sn ->
  EnergyAspect.output (energy tree) !! "growth_rate" = Some gr ->
  EnergyAspect.state (energy tree) !! "tree_size" = Some ts ->
  LogicAspect.output (logic tree) !! "fruit_count" = Some fc ->
  ControlAspect.state (control tree) !! "health" = Some h ->
  ControlAspect.output (control tree) !! "health_status" = Some hs ->
  get_data tree
  = (Ok (mk_data (age tree)
           (<["tree_size" := ts]>
              (<["growth_rate" := gr]> (<["stored_nutrients" := sn]> ∅)))
           (<["fruit_count" := fc]> ∅)
           (<["health_status" := hs]> (<["health" := h]> ∅))),
     tree).
Proof.
  intros E1 E2 E3 E4 E5 E6. unfold get_data.
  rewrite (bind_ok get _ tree tree tree eq_refl).
  unfold getitem. rewrite E1, E2, E3, E4, E5, E6. reflexivity.
Qed.

Lemma num_at_VNum (d : dict) k q : num_at d k = Some q -> d !! k = Some (VNum q).
Proof.
  unfold num_at. destruct (d !! k) as [[q' | x] |]; simpl; try discriminate.
  intros [= ->]. reflexivity.
Qed.

Lemma all_or_none {A} (o1 o2 o3 o4 o5 o6 : option A) :
  (exists a b c d e f,
      o1 = Some a /\ o2 = Some b /\ o3 = Some c /\ o4 = Some d /\ o5 = Some e
      /\ o6 = Some f)
  \/ (o1 = None \/ o2 = None \/ o3 = None \/ o4 = None \/ o5 = None \/ o6 = None).
Proof.
  destruct o1, o2, o3, o4, o5, o6; try tauto. left. eauto 12.
Qed.

Lemma get_data_raise tree :
  EnergyAspect.state (energy tree) !! "stored_nutrients" = None
  \/ EnergyAspect.output (energy tree) !! "growth_rate" = None
  \/ EnergyAspect.state (energy tree) !! "tree_size" = None
  \/ LogicAspect.output (logic tree) !! "fruit_count" = None
  \/ ControlAspect.state (control tree) !! "health" = None
  \/ ControlAspect.output (control tree) !! "health_status" = None ->
  exists k,
    get_data tree = (Raise (KeyError k), tree)
    /\ (k = "stored_nutrients"
           /\ EnergyAspect.state (energy tree) !! "stored_nutrients" = None
        \/ k = "growth_rate"
           /\ EnergyAspect.output (energy tree) !! "growth_rate" = None
        \/ k = "tree_size"
           /\ EnergyAspect.state (energy tree) !! "tree_size" = None
        \/ k = "fruit_count"
           /\ LogicAspect.output (logic tree) !! "fruit_count" = None
        \/ k = "health"
           /\ ControlAspect.state (control tree) !! "health" = None
        \/ k = "health_status"
           /\ ControlAspect.output (control tree) !! "health_status" = None).
Proof.
  intros Hnone. unfold get_data.
  rewrite (bind_ok get _ tree tree tree eq_refl). unfold getitem.
  destruct (EnergyAspect.state (energy tree) !! "stored_nutrients") eqn:E1;
    [| eexists; split; [reflexivity | tauto]].
  destruct (EnergyAspect.output (energy tree) !! "growth_rate") eqn:E2;
    [| eexists; split; [reflexivity | tauto]].
  destruct (EnergyAspect.state (energy tree) !! "tree_size") eqn:E3;
    [| eexists; split; [reflexivity | tauto]].
  destruct (LogicAspect.output (logic tree) !! "fruit_count") eqn:E4;
    [| eexists; split; [reflexivity | tauto]].
  destruct (ControlAspect.state (control tree) !! "health") eqn:E5;
    [| eexists; split; [reflexivity | tauto]].
  destruct (ControlAspect.output (control tree) !! "health_status") eqn:E6;
    [| eexists; split; [reflexivity | tauto]].
  exfalso. intuition discriminate.
Qed.
End DataFacts.

(** X16: [get_data] writes nothing.  It returns when the six entries it reads
    are there, and only then, and what it returns holds those six entries and
    the age; otherwise it raises the [KeyError] of an entry that is
    missing. *)
Theorem X16_get_data_mirrors_the_tree tree :
  match Tree.get_data tree with
  | (Ok data, tree') =>
      tree' = tree
      /\ exists sn gr ts fc h hs,
          EnergyAspect.state (Tree.energy tree) !! "stored_nutrients" = Some sn
          /\ EnergyAspect.output (Tree.energy tree) !! "growth_rate" = Some gr
          /\ EnergyAspect.state (Tree.energy tree) !! "tree_size" = Some ts
          /\ LogicAspect.output (Tree.logic tree) !! "fruit_count" = Some fc
          /\ ControlAspect.state (Tree.control tree) !! "health" = Some h
          /\ ControlAspect.output (Tree.control tree) !! "health_status" = Some hs
          /\ Tree.data_age data = Tree.age tree
          /\ Tree.data_energy data
             = <["tree_size" := ts]>
                 (<["growth_rate" := gr]> (<["stored_nutrients" := sn]> ∅))
          /\ Tree.data_logic data = <["fruit_count" := fc]> ∅
          /\ Tree.data_control data
             = <["health_status" := hs]> (<["health" := h]> ∅)
  | (Raise e, tree') =>
      tree' = tree
      /\ exists k,
          e = KeyError k
          /\ (k = "stored_nutrients"
                 /\ EnergyAspect.state (Tree.energy tree) !! "stored_nutrients" = None
              \/ k = "growth_rate"
                 /\ EnergyAspect.output (Tree.energy tree) !! "growth_rate" = None
              \/ k = "tree_size"
                 /\ EnergyAspect.state (Tree.energy tree) !! "tree_size" = None
              \/ k = "fruit_count"
                 /\ LogicAspect.output (Tree.logic tree) !! "fruit_count" = None
              \/ k = "health"
                 /\ ControlAspect.state (Tree.control tree) !! "health" = None
              \/ k = "health_status"
                 /\ ControlAspect.output (Tree.control tree) !! "health_status" = None)
  end.
Proof.
  destruct (DataFacts.all_or_none
              (EnergyAspect.state (Tree.energy tree) !! "stored_nutrients")
              (EnergyAspect.output (Tree.energy tree) !! "growth_rate")
              (EnergyAspect.state (Tree.energy tree) !! "tree_size")
              (LogicAspect.output (Tree.logic tree) !! "fruit_count")
              (ControlAspect.state (Tree.control tree) !! "health")
              (ControlAspect.output (Tree.control tree) !! "health_status"))
    as [(sn & gr & ts & fc & h & hs & E1 & E2 & E3 & E4 & E5 & E6) | Hnone].
  - rewrite (DataFacts.get_data_ok tree sn gr ts fc h hs E1 E2 E3 E4 E5 E6).
    split; [reflexivity |]. exists sn, gr, ts, fc, h, hs. repeat split; assumption.
  - destruct (DataFacts.get_data_raise tree Hnone) as (k & -> & Hk).
    split; [reflexivity |]. exists k. split; [reflexivity | exact Hk].
Qed.

(** X17: the data read after a [daily_update] of a tree that holds the two
    numbers are those of the day: the age the call left, the nutrients and
    the size the tree now holds, a fruit count that is the number of a
    non-negative integer, and a health with the label that goes with it. *)
Theorem X17_data_of_the_day `{math.Lib} tree s w d T h c df sn ts :
  stored_nutrients tree = Some sn ->
  tree_size tree = Some ts ->
  exists tree' data sn' ts' growth_rate fruit_count health,
    Tree.daily_update s w d T h c df tree = (Ok tt, tree')
    /\ Tree.get_data tree' = (Ok data, tree')
    /\ Tree.data_age data = Tree.age tree + 1 / 365
    /\ stored_nutrients tree' = Some sn'
    /\ tree_size tree' = Some ts'
    /\ Tree.data_energy data !! "stored_nutrients" = Some (VNum sn')
    /\ Tree.data_energy data !! "tree_size" = Some (VNum ts')
    /\ Tree.data_energy data !! "growth_rate" = Some (VNum growth_rate)
    /\ Tree.data_logic data !! "fruit_count" = Some (VNum (inject_Z fruit_count))
    /\ (0 <= fruit_count)%Z
    /\ Tree.data_control data !! "health" = Some (VNum health)
    /\ Tree.data_control data !! "health_status"
       = Some (VStr (Tree.health_status health)).
Proof.
  intros Hsn Hts.
  destruct (TreeFacts.daily_update_ok tree s w d T h c df sn ts Hsn Hts)
    as (tree' & health & g & u & f & Hrun & _ & Hdec & Hage & _ & _
        & Hsize & Hleft & Hg & Hf & Hh & Hs).
  pose proof (HealthFacts.fruit_count_nonneg _ _ _ _ _ _ _ _ _ Hdec) as Hf0.
  pose proof (DataFacts.num_at_VNum _ _ _ Hsize) as Ets.
  pose proof (DataFacts.num_at_VNum _ _ _ Hleft) as Esn.
  eexists tree', _, u, _, g, f, health.
  split; [exact Hrun |].
  split; [apply (DataFacts.get_data_ok tree' _ _ _ _ _ _ Esn Hg Ets Hf Hh Hs) |].
  cbn [Tree.data_age Tree.data_energy Tree.data_logic Tree.data_control].
  split; [exact Hage |]. split; [exact Hleft |]. split; [exact Hsize |].
  repeat split; try assumption; reflexivity.
Qed.

Lemma X17_data_of_the_day_witness :
  exists tree' data sn' ts' growth_rate fruit_count health,
    daily_update_with (H := math.rational) sample_day sample_tree = (Ok tt, tree')
    /\ Tree.get_data tree' = (Ok data, tree')
    /\ Tree.data_age data = Tree.age sample_tree + 1 / 365
    /\ stored_nutrients tree' = Some sn'
    /\ tree_size tree' = Some ts'
    /\ Tree.data_energy data !! "stored_nutrients" = Some (VNum sn')
    /\ Tree.data_energy data !! "tree_size" = Some (VNum ts')
    /\ Tree.data_energy data !! "growth_rate" = Some (VNum growth_rate)
    /\ Tree.data_logic data !! "fruit_count" = Some (VNum (inject_Z fruit_count))
    /\ (0 <= fruit_count)%Z
    /\ Tree.data_control data !! "health" = Some (VNum health)
    /\ Tree.data_control data !! "health_status"
       = Some (VStr (Tree.health_status health)).
Proof.
  apply (X17_data_of_the_day (H := math.rational) sample_tree
           1.0 1.0 200 20 50 400 0.0 50 1.0); reflexivity.
Defined.

(** ** The simulation *)

Module SimulationFacts.
Import Simulation.

Lemma getitem_ok {S} (d : dict) k v (s : S) :
  d !! k = Some v -> getitem d k s = (Ok v, s).
Proof. intros E. unfold getitem. rewrite E. reflexivity. Qed.

Section WithMath.
Context `{math.Lib}.

Lemma fruit_of_day k sn age ts h g u f self :
  age == inject_Z (Z.of_nat (S k)) * (1 / 365) ->
  LogicAspect.decide_growth_and_fruit_production sn
    (inject_Z ((Z.of_nat (S k) - 1) mod 365 + 1)) age ts h self
  = (Ok (g, u, f), self) ->
  fruit_entry k (VNum (inject_Z f)).
Proof.
  intros Hage Hdec. exists f. split; [reflexivity |].
  split; [apply (HealthFacts.fruit_count_nonneg _ _ _ _ _ _ _ _ _ Hdec) |].
  intros Hf.
  destruct (DecideFacts.decide_run self sn
              (inject_Z ((Z.of_nat (S k) - 1) mod 365 + 1)) age ts h)
    as (g' & Hrun & _).
  rewrite Hrun in Hdec.
  match type of Hdec with
  | context [if ?b then _ else _] => destruct b eqn:F
  end; rewrite ?F in Hdec;
    [| injection Hdec as _ _ Ef; exfalso; apply Hf; symmetry; exact Ef].
  apply LogicAspectFacts.fruiting_true in F. destruct F as ([D1 D2] & _ & [A1 A2]).
  replace (Z.of_nat (S k) - 1)%Z with (Z.of_nat k) in * by lia.
  split.
  - rewrite Hage in A1, A2.
    assert (B1 : inject_Z 1095 <= inject_Z (Z.of_nat (S k))).
    { change (inject_Z 1095) with 1095.
      assert (E : inject_Z (Z.of_nat (S k)) * (1 / 365) * 365
                  == inject_Z (Z.of_nat (S k))) by field.
      lra. }
    assert (B2 : inject_Z (Z.of_nat (S k)) <= inject_Z 1825).
    { change (inject_Z 1825) with 1825.
      assert (E : inject_Z (Z.of_nat (S k)) * (1 / 365) * 365
                  == inject_Z (Z.of_nat (S k))) by field.
      lra. }
    rewrite <- Zle_Qle in B1, B2. lia.
  - change 150 with (inject_Z 150) in D1. change 250 with (inject_Z 250) in D2.
    rewrite <- Zle_Qle in D1, D2. lia.
Qed.

Lemma body_ok k l :
  inv k l ->
  exists l', body (Z.of_nat (S k)) l = (Ok tt, l') /\ inv (S k) l'.
Proof.
  intros [[sn Hsn] [ts Hts] Hage L1 L2 L3 L4 Hfruit Hhealth].
  destruct l as [t l1 l2 l3 l4]. cbn [tree stored_nutrients_list growth_rate_list
    fruit_count_list health_list] in *.
  set (doy := inject_Z ((Z.of_nat (S k) - 1) mod 365 + 1)).
  destruct (TreeFacts.daily_update_ok t 1.0 1.0 doy 20 50 400 0.0 sn ts Hsn Hts)
    as (t' & health & g & u & f & Hrun & Hassess & Hdec & Hage' & _ & _
        & Hsize & Hleft & Hg & Hf & Hh & Hs).
  pose proof (DataFacts.num_at_VNum _ _ _ Hsize) as Ets.
  pose proof (DataFacts.num_at_VNum _ _ _ Hleft) as Esn.
  pose proof (DataFacts.get_data_ok t' _ _ _ _ _ _ Esn Hg Ets Hf Hh Hs) as Hdata.
  eexists. split.
  - unfold body. cbv zeta. fold doy.
    erewrite bind_ok by (apply zoom_ok; exact Hrun).
    erewrite bind_ok by (apply zoom_ok; exact Hdata).
    cbn [Tree.data_energy Tree.data_logic Tree.data_control].
    erewrite bind_ok by (apply getitem_ok; simplify_map_eq; reflexivity).
    erewrite bind_ok by reflexivity.
    erewrite bind_ok by (apply getitem_ok; simplify_map_eq; reflexivity).
    erewrite bind_ok by reflexivity.
    erewrite bind_ok by (apply getitem_ok; simplify_map_eq; reflexivity).
    erewrite bind_ok by reflexivity.
    erewrite bind_ok by (apply getitem_ok; simplify_map_eq; reflexivity).
    reflexivity.
  - cbn [tree stored_nutrients_list growth_rate_list fruit_count_list health_list
           set_tree].
    assert (Hage'' : Tree.age t' == inject_Z (Z.of_nat (S k)) * (1 / 365)).
    { rewrite Hage', Hage, Nat2Z.inj_succ, <- Z.add_1_r, inject_Z_plus.
      change (inject_Z 1) with 1. ring. }
    split; cbn [tree stored_nutrients_list growth_rate_list fruit_count_list
                  health_list]; eauto.
    + rewrite length_app, L1. cbn. lia.
    + rewrite length_app, L2. cbn. lia.
    + rewrite length_app, L3. cbn. lia.
    + rewrite length_app, L4. cbn. lia.
    + intros i v Hi. apply lookup_app_Some in Hi.
      destruct Hi as [Hi | [Hge Hi]]; [apply (Hfruit i v Hi) |].
      rewrite L3 in *. destruct (i - k)%nat eqn:Ei; [| discriminate].
      injection Hi as <-. assert (i = k) by lia. subst i.
      rewrite Hage' in Hage''.
      apply (fruit_of_day k _ _ _ _ _ _ _ _ Hage'' Hdec).
    + intros v Hv. apply elem_of_app in Hv. destruct Hv as [Hv | Hv];
        [apply (Hhealth v Hv) |].
      apply list_elem_of_singleton in Hv. subst v.
      apply HealthFacts.assess_health_value in Hassess.
      exists health. split; [reflexivity |].
      match type of Hassess with _ = if ?b then _ else _ => destruct b end;
        subst health; lra.
Qed.

Lemma for_in_ok n : forall k l,
  inv k l ->
  exists l',
    for_in (map Z.of_nat (seq (S k) n)) body l = (Ok tt, l') /\ inv (k + n) l'.
Proof.
  induction n as [| n IH]; intros k l Hinv.
  - exists l. split; [reflexivity |]. rewrite Nat.add_0_r. exact Hinv.
  - destruct (body_ok k l Hinv) as (l1 & Hbody & Hinv1).
    destruct (IH (S k) l1 Hinv1) as (l' & Hrest & Hinv').
    exists l'. split.
    + cbn [seq map for_in]. rewrite (bind_ok _ _ _ _ _ Hbody). exact Hrest.
    + replace (k + S n)%nat with (S k + n)%nat by lia. exact Hinv'.
Qed.

Lemma inv_start : inv 0 (mk_locals (Tree.init 51.509865 50) [] [] [] []).
Proof.
  split; cbn; eauto; try reflexivity.
  - intros i v Hi. destruct i; discriminate.
  - intros v Hv. inversion Hv.
Qed.
End WithMath.
End SimulationFacts.

Lemma simulate_growth_ok `{math.Lib} years :
  exists l,
    Simulation.simulate_growth years = (Ok tt, l)
    /\ inv (Z.to_nat (years * 365)) l.
Proof.
  unfold Simulation.simulate_growth, Simulation.range1. cbv zeta.
  apply (SimulationFacts.for_in_ok (Z.to_nat (years * 365)) 0 _
           SimulationFacts.inv_start).
Qed.

(** X18: for any integer years the loop of [simulate_growth] runs to its
    end without an exception and appends one entry to each of its four lists
    for each of the 365 * years days (none when years is negative). *)
Theorem X18_simulation_returns `{math.Lib} years :
  exists l,
    Simulation.simulate_growth years = (Ok tt, l)
    /\ length (Simulation.stored_nutrients_list l) = Z.to_nat (years * 365)
    /\ length (Simulation.growth_rate_list l) = Z.to_nat (years * 365)
    /\ length (Simulation.fruit_count_list l) = Z.to_nat (years * 365)
    /\ length (Simulation.health_list l) = Z.to_nat (years * 365).
Proof.
  destruct (simulate_growth_ok years) as (l & Hrun & [_ _ _ L1 L2 L3 L4 _ _]).
  exists l. repeat split; assumption.
Qed.

(** X19: every fruit count the simulation records is the number of an integer
    that is not negative, and it is 0 on every day but those from day 1095 to
    day 1825 (the fourth and fifth years) whose day of the year is from 150
    to 250. *)
Theorem X19_simulation_fruit `{math.Lib} years :
  exists l,
    Simulation.simulate_growth years = (Ok tt, l)
    /\ forall (i : nat) v,
         Simulation.fruit_count_list l !! i = Some v ->
         exists f : Z,
           v = VNum (inject_Z f) /\ (0 <= f)%Z
           /\ (f <> 0%Z ->
               (1095 <= Z.of_nat i + 1 <= 1825)%Z
               /\ (150 <= Z.of_nat i mod 365 + 1 <= 250)%Z).
Proof.
  destruct (simulate_growth_ok years) as (l & Hrun & [_ _ _ _ _ _ _ Hfruit _]).
  exists l. split; [exact Hrun | exact Hfruit].
Qed.

(** X20: every health the simulation records is a number from 0.9 to 1.0:
    the simulated tree is never diseased. *)
Theorem X20_simulation_health `{math.Lib} years :
  exists l,
    Simulation.simulate_growth years = (Ok tt, l)
    /\ forall v, v ∈ Simulation.health_list l ->
         exists q : Q, v = VNum q /\ 0.9 <= q <= 1.0.
Proof.
  destruct (simulate_growth_ok years) as (l & Hrun & [_ _ _ _ _ _ _ _ Hhealth]).
  exists l. split; [exact Hrun | exact Hhealth].
Qed.

(** ** The balance of a day *)

(** X23: the nutrients a [daily_update] leaves are those it found, plus the
    energy generated (none on a leafless day), less what respiration
    consumed, less half a unit for each fruit of the count it wrote. *)
Theorem X23_balance_of_a_day `{math.Lib} tree s w d T h c df sn ts :
  stored_nutrients tree = Some sn ->
  tree_size tree = Some ts ->
  exists tree' efficiency fruit_count sn',
    Tree.daily_update s w d T h c df tree = (Ok tt, tree')
    /\ (let in_leaf := EnergyAspect.set_has_leaves true (Tree.energy tree) in
        EnergyAspect.photosynthesis d T h c 1 in_leaf = (Ok efficiency, in_leaf))
    /\ LogicAspect.output (Tree.logic tree') !! "fruit_count"
       = Some (VNum (inject_Z fruit_count))
    /\ (0 <= fruit_count)%Z
    /\ stored_nutrients tree' = Some sn'
    /\ let generated := if Tree.leafless d then 0 else s * w * 0.1 * efficiency in
       let consumed :=
         0.05 * ts
         + (if 20 <? sn + generated then 0.02 * (sn + generated) else 0) in
       sn' == sn + generated - consumed - inject_Z fruit_count * 0.5.
Proof.
  intros Hsn Hts.
  destruct (TreeFacts.daily_update_ok tree s w d T h c df sn ts Hsn Hts)
    as (tree' & health & g & u & f & Hrun & _ & Hdec & _ & _ & _ & _ & Hleft & _
        & Hf & _).
  exists tree', (photosynthesized (EnergyAspect.latitude (Tree.energy tree)) d T h c 1 ts),
    f, u.
  split; [exact Hrun | split].
  { cbv zeta.
    apply (EnergyAspectFacts.photosynthesis_leaves
             (EnergyAspect.set_has_leaves true (Tree.energy tree)) d T h c 1 ts);
      [reflexivity | exact Hts]. }
  split; [exact Hf |].
  split; [apply (HealthFacts.fruit_count_nonneg _ _ _ _ _ _ _ _ _ Hdec) |].
  split; [exact Hleft |].
  match type of Hdec with
  | LogicAspect.decide_growth_and_fruit_production ?n ?d ?a ?t ?h ?l = _ =>
      destruct (DecideFacts.decide_run l n d a t h) as (g' & Hrun' & _);
      set (sn2 := n) in *
  end.
  rewrite Hrun' in Hdec.
  assert (Eu : u == sn2 - inject_Z f * 0.5).
  { match type of Hdec with
    | context [if ?b then _ else _] => destruct b
    end; injection Hdec as _ <- <-; [reflexivity |].
    change (inject_Z 0) with 0. ring. }
  cbv zeta. rewrite Eu. unfold sn2, fed_nutrients.
  fold (generated (EnergyAspect.latitude (Tree.energy tree)) s w d T h c ts).
  unfold generated at 3 4. fold (consumption (sn + (if Tree.leafless d then 0 else
    s * w * 0.1 * photosynthesized (EnergyAspect.latitude (Tree.energy tree)) d T h c 1 ts)) ts).
  destruct (Tree.leafless d); cbn [negb].
  - assert (Ec : consumption (sn + 0) ts == consumption sn ts)
      by (apply consumption_proper; ring).
    rewrite Ec. ring.
  - reflexivity.
Qed.

Lemma X23_balance_of_a_day_witness :
  exists tree' fruit_count sn',
    daily_update_with (H := math.rational) sample_day sample_tree = (Ok tt, tree')
    /\ LogicAspect.output (Tree.logic tree') !! "fruit_count"
       = Some (VNum (inject_Z fruit_count))
    /\ (0 <= fruit_count)%Z
    /\ stored_nutrients tree' = Some sn'.
Proof.
  destruct (X23_balance_of_a_day (H := math.rational) sample_tree
              1.0 1.0 200 20 50 400 0.0 50 1.0 eq_refl eq_refl)
    as (tree' & efficiency & f & sn' & Hrun & _ & Hf & H0 & Hsn' & _).
  exists tree', f, sn'. repeat split; assumption.
Defined.
